(** * A shallow embedding of the ewm 6502 CPU core (cpu.c)

    The C code works on a [struct cpu_t *cpu]; through that pointer it
    reaches the register file, the list of memory regions and the buffers
    behind them, and it prints on stderr.  The embedding threads a
    [machine] (CPU structure, heap of byte buffers, stderr) through every
    function.  Integers of the C code are [Z] with the wrap-around of their
    C type written out; a result of [None] stands for undefined behaviour
    of the C program (a read through a null or too short buffer, an address
    no region covers, a local buffer overrun). *)

From stdpp Require Import base option list gmap strings pretty.

Local Open Scope Z_scope.
Set Default Proof Using "Type".

(** ** Machine integers *)

Definition u8 (z : Z) : Z := z mod 0x100.
Definition u16 (z : Z) : Z := z mod 0x10000.
Definition u64 (z : Z) : Z := z mod 0x10000000000000000.

(** [(int8_t) b] for a byte [b]. *)
Definition int8 (z : Z) : Z := if u8 z <? 0x80 then u8 z else u8 z - 0x100.
(** [(int64_t) n], what the [PRId64] conversion prints. *)
Definition int64 (z : Z) : Z :=
  if u64 z <? 0x8000000000000000 then u64 z else u64 z - 0x10000000000000000.

(** The value of the C expression [e != 0]. *)
Definition ne0 (e : Z) : Z := if e =? 0 then 0 else 1.

(** ** Data model *)

(** [struct cpu_state_t]: the field [f] of the C structure is [state_f].
    The seven flags are bytes; a flag is set when its byte is not zero. *)
Record cpu_state_t := mk_state {
  state_a : Z; state_x : Z; state_y : Z; state_s : Z; state_sp : Z;
  state_pc : Z;
  state_n : Z; state_v : Z; state_b : Z; state_d : Z; state_i : Z;
  state_z : Z; state_c : Z
}.

Definition flag_set (f : Z) : bool := negb (f =? 0).

Definition with_a (e : Z) (st : cpu_state_t) : cpu_state_t :=
  mk_state e (state_x st) (state_y st) (state_s st) (state_sp st) (state_pc st)
    (state_n st) (state_v st) (state_b st) (state_d st) (state_i st) (state_z st) (state_c st).
Definition with_x (e : Z) (st : cpu_state_t) : cpu_state_t :=
  mk_state (state_a st) e (state_y st) (state_s st) (state_sp st) (state_pc st)
    (state_n st) (state_v st) (state_b st) (state_d st) (state_i st) (state_z st) (state_c st).
Definition with_y (e : Z) (st : cpu_state_t) : cpu_state_t :=
  mk_state (state_a st) (state_x st) e (state_s st) (state_sp st) (state_pc st)
    (state_n st) (state_v st) (state_b st) (state_d st) (state_i st) (state_z st) (state_c st).
Definition with_sp (e : Z) (st : cpu_state_t) : cpu_state_t :=
  mk_state (state_a st) (state_x st) (state_y st) (state_s st) e (state_pc st)
    (state_n st) (state_v st) (state_b st) (state_d st) (state_i st) (state_z st) (state_c st).
Definition with_pc (e : Z) (st : cpu_state_t) : cpu_state_t :=
  mk_state (state_a st) (state_x st) (state_y st) (state_s st) (state_sp st) e
    (state_n st) (state_v st) (state_b st) (state_d st) (state_i st) (state_z st) (state_c st).
Definition with_n (e : Z) (st : cpu_state_t) : cpu_state_t :=
  mk_state (state_a st) (state_x st) (state_y st) (state_s st) (state_sp st) (state_pc st)
    e (state_v st) (state_b st) (state_d st) (state_i st) (state_z st) (state_c st).
Definition with_v (e : Z) (st : cpu_state_t) : cpu_state_t :=
  mk_state (state_a st) (state_x st) (state_y st) (state_s st) (state_sp st) (state_pc st)
    (state_n st) e (state_b st) (state_d st) (state_i st) (state_z st) (state_c st).
Definition with_b (e : Z) (st : cpu_state_t) : cpu_state_t :=
  mk_state (state_a st) (state_x st) (state_y st) (state_s st) (state_sp st) (state_pc st)
    (state_n st) (state_v st) e (state_d st) (state_i st) (state_z st) (state_c st).
Definition with_d (e : Z) (st : cpu_state_t) : cpu_state_t :=
  mk_state (state_a st) (state_x st) (state_y st) (state_s st) (state_sp st) (state_pc st)
    (state_n st) (state_v st) (state_b st) e (state_i st) (state_z st) (state_c st).
Definition with_i (e : Z) (st : cpu_state_t) : cpu_state_t :=
  mk_state (state_a st) (state_x st) (state_y st) (state_s st) (state_sp st) (state_pc st)
    (state_n st) (state_v st) (state_b st) (state_d st) e (state_z st) (state_c st).
Definition with_z (e : Z) (st : cpu_state_t) : cpu_state_t :=
  mk_state (state_a st) (state_x st) (state_y st) (state_s st) (state_sp st) (state_pc st)
    (state_n st) (state_v st) (state_b st) (state_d st) (state_i st) e (state_c st).
Definition with_c (e : Z) (st : cpu_state_t) : cpu_state_t :=
  mk_state (state_a st) (state_x st) (state_y st) (state_s st) (state_sp st) (state_pc st)
    (state_n st) (state_v st) (state_b st) (state_d st) (state_i st) (state_z st) e.

(** ** The packed status byte *)

(** [_cpu_get_status] (cpu.c, lines 79-88). *)
Definition _cpu_get_status (st : cpu_state_t) : Z :=
  u8 (Z.lor (Z.lor (Z.lor (Z.lor (Z.lor (Z.lor (Z.lor
       0x30
       (Z.shiftl (Z.land (ne0 (state_n st)) 0x01) 7))
       (Z.shiftl (Z.land (ne0 (state_v st)) 0x01) 6))
       (Z.shiftl (Z.land (ne0 (state_b st)) 0x01) 4))
       (Z.shiftl (Z.land (ne0 (state_d st)) 0x01) 3))
       (Z.shiftl (Z.land (ne0 (state_i st)) 0x01) 2))
       (Z.shiftl (Z.land (ne0 (state_z st)) 0x01) 1))
       (Z.shiftl (Z.land (ne0 (state_c st)) 0x01) 0)).

(** [_cpu_set_status] (cpu.c, lines 90-98). *)
Definition _cpu_set_status (st : cpu_state_t) (status : Z) : cpu_state_t :=
  let st := with_n (u8 (Z.land status (Z.shiftl 1 7))) st in
  let st := with_v (u8 (Z.land status (Z.shiftl 1 6))) st in
  let st := with_b (u8 (Z.land status (Z.shiftl 1 4))) st in
  let st := with_d (u8 (Z.land status (Z.shiftl 1 3))) st in
  let st := with_i (u8 (Z.land status (Z.shiftl 1 2))) st in
  let st := with_z (u8 (Z.land status (Z.shiftl 1 1))) st in
  let st := with_c (u8 (Z.land status (Z.shiftl 1 0))) st in
  st.

(** ** Memory regions and the machine *)

Inductive mem_type_t := MEM_TYPE_RAM | MEM_TYPE_ROM | MEM_TYPE_IOM.

(** The function pointers a region can hold.  RAM and ROM regions hold the
    two static readers of cpu.c; an I/O region holds a handler of its
    caller, taken here as a function of the address with no effect on the
    machine. *)
Inductive mem_read_handler_t :=
  | ram_read_handler
  | rom_read_handler
  | iom_read_handler (f : Z → Z).

Inductive mem_write_handler_t :=
  | ram_write_handler
  | iom_write_handler.

(** [struct mem_t]; [mem_obj] is the address of the backing buffer in the
    heap, [next] is the tail of the list the region sits in. *)
Record mem_t := mk_mem {
  mem_type : mem_type_t;
  mem_obj : nat;
  mem_start : Z;
  mem_length : Z;
  mem_read_handler : option mem_read_handler_t;
  mem_write_handler : option mem_write_handler_t
}.

(** [struct cpu_t]: [mem] is the list of regions, most recently registered
    first; [memory] is the shortcut pointer to the zero page and stack page
    ([None] is NULL). *)
Record cpu_t := mk_cpu {
  state : cpu_state_t;
  strict : bool;
  trace : Z;
  mem : list mem_t;
  memory : option nat
}.

Record machine := mk_machine {
  cpu : cpu_t;
  heap : gmap nat (list Z);
  stderr : list string
}.

Definition st (m : machine) : cpu_state_t := state (cpu m).

Definition set_state (f : cpu_state_t → cpu_state_t) (m : machine) : machine :=
  mk_machine
    (mk_cpu (f (st m)) (strict (cpu m)) (trace (cpu m)) (mem (cpu m)) (memory (cpu m)))
    (heap m) (stderr m).

Definition set_heap (h : gmap nat (list Z)) (m : machine) : machine :=
  mk_machine (cpu m) h (stderr m).

Definition fprintf_stderr (text : string) (m : machine) : machine :=
  mk_machine (cpu m) (heap m) (stderr m ++ [text]).

(** [_ram_read] and [_rom_read] (cpu.c, lines 324-326 and 346-348):
    [((uint8_t * ) mem->obj)[addr - mem->start]]. *)
Definition _ram_read (h : gmap nat (list Z)) (r : mem_t) (addr : Z) : option Z :=
  buf ← h !! mem_obj r;
  if decide (0 ≤ addr - mem_start r) then buf !! Z.to_nat (addr - mem_start r) else None.

Definition _rom_read (h : gmap nat (list Z)) (r : mem_t) (addr : Z) : option Z :=
  buf ← h !! mem_obj r;
  if decide (0 ≤ addr - mem_start r) then buf !! Z.to_nat (addr - mem_start r) else None.

Definition call_read_handler (f : mem_read_handler_t)
    (h : gmap nat (list Z)) (r : mem_t) (addr : Z) : option Z :=
  match f with
  | ram_read_handler => _ram_read h r addr
  | rom_read_handler => _rom_read h r addr
  | iom_read_handler f => Some (u8 (f addr))
  end.

(** Modelled from the spec: the memory bus of mem.c, which is not part of
    the sources at hand.  A region covers the half-open range
    [start, start+length); a read scans the regions in priority order and
    delegates to the handler of the first one that covers the address; an
    address that no region covers is undefined. *)
Definition mem_covers (r : mem_t) (addr : Z) : bool :=
  (mem_start r <=? addr) && (addr <? mem_start r + mem_length r).

Fixpoint mem_resolve (regions : list mem_t) (addr : Z) : option mem_t :=
  match regions with
  | [] => None
  | r :: next => if mem_covers r addr then Some r else mem_resolve next addr
  end.

Definition mem_get_byte (m : machine) (addr : Z) : option Z :=
  r ← mem_resolve (mem (cpu m)) addr;
  f ← mem_read_handler r;
  call_read_handler f (heap m) r addr.

(** Modelled from the spec: a word is two bytes, little-endian. *)
Definition mem_get_word (m : machine) (addr : Z) : option Z :=
  lo ← mem_get_byte m addr;
  hi ← mem_get_byte m (u16 (addr + 1));
  Some (Z.lor lo (Z.shiftl hi 8)).

(** Modelled from the spec: the direct accessors of mem.h, which index the
    cached buffer [cpu->memory] without region resolution. *)
Definition _mem_get_byte_direct (m : machine) (addr : Z) : option Z :=
  p ← memory (cpu m);
  buf ← heap m !! p;
  buf !! Z.to_nat addr.

Definition _mem_set_byte_direct (m : machine) (addr : Z) (b : Z) : option machine :=
  p ← memory (cpu m);
  buf ← heap m !! p;
  if decide (Z.to_nat addr < length buf)%nat
  then Some (set_heap (<[p := <[Z.to_nat addr := b]> buf]> (heap m)) m)
  else None.

(** Modelled from the spec: the vectors of cpu.h. *)
Definition EWM_VECTOR_NMI : Z := 0xfffa.
Definition EWM_VECTOR_RES : Z := 0xfffc.
Definition EWM_VECTOR_IRQ : Z := 0xfffe.

(** ** Stack management (cpu.c, lines 46-71) *)

Definition _cpu_push_byte (m : machine) (b : Z) : option machine :=
  m ← _mem_set_byte_direct m (0x0100 + state_sp (st m)) b;
  Some (set_state (with_sp (u8 (state_sp (st m) - 1))) m).

Definition _cpu_push_word (m : machine) (w : Z) : option machine :=
  m ← _cpu_push_byte m (u8 (Z.shiftr w 8));
  _cpu_push_byte m (u8 w).

Definition _cpu_pull_byte (m : machine) : option (Z * machine) :=
  let m := set_state (with_sp (u8 (state_sp (st m) + 1))) m in
  b ← _mem_get_byte_direct m (0x0100 + state_sp (st m));
  Some (b, m).

(** C does not fix which operand of [|] is evaluated first; the pulls are
    taken left to right, low byte first, as the compilers in use do. *)
Definition _cpu_pull_word (m : machine) : option (Z * machine) :=
  '(lo, m) ← _cpu_pull_byte m;
  '(hi, m) ← _cpu_pull_byte m;
  Some (u16 (Z.lor lo (Z.shiftl hi 8)), m).

Definition _cpu_stack_free (m : machine) : Z := state_sp (st m).

Definition _cpu_stack_used (m : machine) : Z := u8 (0xff - state_sp (st m)).

(** ** Text produced by the [printf] family *)

Definition hex_digit (upper : bool) (e : Z) : Ascii.ascii :=
  Ascii.ascii_of_nat (Z.to_nat (if e <? 10 then 48 + e else (if upper then 55 else 87) + e)).

(** [%.kX] (or [%.kx]) of a value that fits [k] hexadecimal digits, as the
    bytes and words printed by cpu.c do. *)
Fixpoint hex (upper : bool) (digits : nat) (e : Z) : string :=
  match digits with
  | O => ""
  | S k => hex upper k (e / 16) +:+ String (hex_digit upper (e mod 16)) ""
  end.

Definition X2 (e : Z) : string := hex true 2 e.
Definition X4 (e : Z) : string := hex true 4 e.

Fixpoint spaces (k : nat) : string :=
  match k with O => "" | S k => " " +:+ spaces k end.

(** [%-20s]. *)
Definition left20 (text : string) : string :=
  text +:+ spaces (20 - String.length text).

Definition newline : string := String (Ascii.ascii_of_nat 10) "".

(** A text written with [sprintf] into a local array of [size] chars; the
    terminating zero needs a place too. *)
Definition sprintf (size : nat) (text : string) : option string :=
  if decide (String.length text < size)%nat then Some text else None.

(** ** Opcode descriptors *)

(** What a handler is called with: nothing, a byte or a word, by the three
    function types [cpu_instruction_handler_t],
    [cpu_instruction_handler_byte_t] and [cpu_instruction_handler_word_t]. *)
Inductive operand_t :=
  | oper_none
  | oper_byte (oper : Z)
  | oper_word (oper : Z).

(** [cpu_instruction_t] of ins.h; [ins_handler] is [None] for a NULL
    handler.  A handler is code outside cpu.c: a total function on the
    machine. *)
Record cpu_instruction_t := mk_instruction {
  ins_name : string;
  ins_bytes : Z;
  ins_stack : Z;
  ins_handler : option (machine → operand_t → machine)
}.

Section Cpu.

(** The opcode table of ins.c and the error codes of cpu.h are not part of
    the sources at hand: they are parameters. *)
Variable instructions : Z → cpu_instruction_t.
Variable EWM_CPU_ERR_UNIMPLEMENTED_INSTRUCTION : Z.
Variable EWM_CPU_ERR_STACK_OVERFLOW : Z.
Variable EWM_CPU_ERR_STACK_UNDERFLOW : Z.

(** ** The tracer (cpu.c, lines 100-217) *)

Definition cpu_format_instruction (m : machine) : option string :=
  let pc := state_pc (st m) in
  opcode ← mem_get_byte m pc;
  let name := ins_name (instructions opcode) in
  let byte1 := mem_get_byte m (u16 (pc + 1)) in
  let byte2 := mem_get_byte m (u16 (pc + 2)) in
  text ←
    (if ins_bytes (instructions opcode) =? 1 then
       Some name
     else if opcode =? 0x20 then
       w ← mem_get_word m (u16 (pc + 1)); Some (name +:+ " $" +:+ X4 w)
     else if Z.land opcode 0x1f =? 0x10 then
       b1 ← byte1;
       let offset := int8 b1 in
       let addr := u16 (pc + 2 + offset) in
       Some (name +:+ " $" +:+ X4 addr)
     else if Z.land opcode 0x03 =? 0x01 then
       match Z.shiftr (Z.land opcode 0x1c) 2 with
       | 0 => b1 ← byte1; Some (name +:+ " ($" +:+ X2 b1 +:+ ",X)")
       | 1 => b1 ← byte1; Some (name +:+ " $" +:+ X2 b1)
       | 2 => b1 ← byte1; Some (name +:+ " #$" +:+ X2 b1)
       | 3 => b2 ← byte2; b1 ← byte1; Some (name +:+ " $" +:+ X2 b2 +:+ X2 b1)
       | 4 => b1 ← byte1; Some (name +:+ " ($" +:+ X2 b1 +:+ "),Y")
       | 5 => b1 ← byte1; Some (name +:+ " $" +:+ X2 b1 +:+ ",X")
       | 6 => b2 ← byte2; b1 ← byte1; Some (name +:+ " $" +:+ X2 b2 +:+ X2 b1 +:+ ",Y")
       | 7 => b2 ← byte2; b1 ← byte1; Some (name +:+ " $" +:+ X2 b2 +:+ X2 b1 +:+ ",X")
       | _ => Some ""
       end
     else if Z.land opcode 0x03 =? 0x02 then
       match Z.shiftr (Z.land opcode 0x1c) 2 with
       | 0 => b1 ← byte1; Some (name +:+ " #$" +:+ X2 b1)
       | 1 => b1 ← byte1; Some (name +:+ " $" +:+ X2 b1)
       | 2 => Some name
       | 3 => b2 ← byte2; b1 ← byte1; Some (name +:+ " $" +:+ X2 b2 +:+ X2 b1)
       | 5 => b1 ← byte1; Some (name +:+ " $" +:+ X2 b1 +:+ ",X")
       | 7 => b2 ← byte2; b1 ← byte1; Some (name +:+ " $" +:+ X2 b2 +:+ X2 b1 +:+ ",X")
       | _ => Some ""
       end
     else if Z.land opcode 0x03 =? 0x00 then
       match Z.shiftr (Z.land opcode 0x1c) 2 with
       | 0 => b1 ← byte1; Some (name +:+ " #$" +:+ X2 b1)
       | 1 => b1 ← byte1; Some (name +:+ " $" +:+ X2 b1)
       | 3 => b2 ← byte2; b1 ← byte1; Some (name +:+ " $" +:+ X2 b2 +:+ X2 b1)
       | 5 => b1 ← byte1; Some (name +:+ " $" +:+ X2 b1 +:+ ",X")
       | 7 => b2 ← byte2; b1 ← byte1; Some (name +:+ " $" +:+ X2 b2 +:+ X2 b1 +:+ ",X")
       | _ => Some ""
       end
     else Some "");
  sprintf 256 text.

Definition flag_char (f : Z) (letter : string) : string :=
  if f =? 0 then "-" else letter.

Definition cpu_format_state (m : machine) : option string :=
  sprintf 256
    ("A=" +:+ X2 (state_a (st m)) +:+ " X=" +:+ X2 (state_x (st m))
     +:+ " Y=" +:+ X2 (state_y (st m)) +:+ " S=" +:+ X2 (state_s (st m))
     +:+ " SP=" +:+ X4 (0x0100 + state_sp (st m)) +:+ " "
     +:+ flag_char (state_n (st m)) "N"
     +:+ flag_char (state_v (st m)) "V"
     +:+ "-"
     +:+ flag_char (state_b (st m)) "B"
     +:+ flag_char (state_d (st m)) "D"
     +:+ flag_char (state_i (st m)) "I"
     +:+ flag_char (state_z (st m)) "Z"
     +:+ flag_char (state_c (st m)) "C").

(** The loop [for (sp = cpu->state.sp; sp != 0xff; sp++)], which runs
    [0xff - cpu->state.sp] times. *)
Fixpoint cpu_format_stack_loop (rounds : nat) (m : machine) (sp : Z) (buffer : string)
    : option string :=
  match rounds with
  | O => Some buffer
  | S rounds =>
      b ← _mem_get_byte_direct m (0x0100 + sp);
      tmp ← sprintf 8 (" " +:+ X2 b);
      cpu_format_stack_loop rounds m (u16 (sp + 1)) (buffer +:+ tmp)
  end.

Definition cpu_format_stack (m : machine) : option string :=
  buffer ← cpu_format_stack_loop (Z.to_nat (0xff - state_sp (st m))) m (state_sp (st m)) "";
  sprintf 256 buffer.

(** ** The instruction dispatcher (cpu.c, lines 219-290) *)

(** The trace line written after the handler has run (lines 269-287); [pc]
    is the program counter before the instruction, [trace_instruction] the
    local buffer filled on entry ([None] while it is uninitialised). *)
Definition cpu_trace_line (i : cpu_instruction_t) (pc : Z)
    (trace_instruction : option string) (m : machine) : option machine :=
  trace_state ← cpu_format_state m;
  trace_stack ← cpu_format_stack m;
  match ins_bytes i with
  | 1 =>
      text ← trace_instruction;
      b0 ← mem_get_byte m pc;
      Some (fprintf_stderr
        ("CPU: " +:+ X4 pc +:+ " " +:+ left20 text +:+ " | " +:+ X2 b0
         +:+ "           " +:+ left20 trace_state +:+ "  STACK: " +:+ trace_stack
         +:+ newline) m)
  | 2 =>
      text ← trace_instruction;
      b0 ← mem_get_byte m pc;
      b1 ← mem_get_byte m (u16 (pc + 1));
      Some (fprintf_stderr
        ("CPU: " +:+ X4 pc +:+ " " +:+ left20 text +:+ " | " +:+ X2 b0 +:+ " " +:+ X2 b1
         +:+ "        " +:+ left20 trace_state +:+ "  STACK: " +:+ trace_stack
         +:+ newline) m)
  | 3 =>
      text ← trace_instruction;
      b0 ← mem_get_byte m pc;
      b1 ← mem_get_byte m (u16 (pc + 1));
      b2 ← mem_get_byte m (u16 (pc + 2));
      Some (fprintf_stderr
        ("CPU: " +:+ X4 pc +:+ " " +:+ left20 text +:+ " | " +:+ X2 b0 +:+ " " +:+ X2 b1
         +:+ " " +:+ X2 b2
         +:+ "     " +:+ left20 trace_state +:+ "  STACK: " +:+ trace_stack
         +:+ newline) m)
  | _ => Some m
  end.

Definition cpu_execute_instruction (m : machine) : option (Z * machine) :=
  (* Trace code *)
  trace_instruction ←
    (if trace (cpu m) =? 0 then Some None
     else text ← cpu_format_instruction m; Some (Some text));
  (* Fetch instruction *)
  opcode ← mem_get_byte m (state_pc (st m));
  let i := instructions opcode in
  match ins_handler i with
  | None => Some (EWM_CPU_ERR_UNIMPLEMENTED_INSTRUCTION, m)
  | Some handler =>
      (* If strict mode and if we need the stack, check if that works out *)
      let refused :=
        if strict (cpu m) && negb (ins_stack i =? 0) then
          if 0 <? ins_stack i then
            if _cpu_stack_free m <? ins_stack i
            then Some EWM_CPU_ERR_STACK_OVERFLOW else None
          else
            if _cpu_stack_used m <? - ins_stack i
            then Some EWM_CPU_ERR_STACK_UNDERFLOW else None
        else None in
      match refused with
      | Some err => Some (err, m)
      | None =>
          (* Remember the PC since some instructions modify it *)
          let pc := state_pc (st m) in
          (* Advance PC *)
          let m :=
            if pc =? state_pc (st m)
            then set_state (with_pc (u16 (state_pc (st m) + ins_bytes i))) m
            else m in
          (* Execute instruction *)
          m ← match ins_bytes i with
              | 1 => Some (handler m oper_none)
              | 2 => oper ← mem_get_byte m (u16 (pc + 1)); Some (handler m (oper_byte oper))
              | 3 => oper ← mem_get_word m (u16 (pc + 1)); Some (handler m (oper_word oper))
              | _ => Some m
              end;
          m ← (if trace (cpu m) =? 0 then Some m
               else cpu_trace_line i pc trace_instruction m);
          Some (0, m)
      end
  end.

(** ** Public API (cpu.c, lines 294-472) *)

(** [cpu_init]: the whole structure is zeroed. *)
Definition cpu_init (m : machine) : machine :=
  mk_machine (mk_cpu (mk_state 0 0 0 0 0 0 0 0 0 0 0 0 0) false 0 [] None)
    (heap m) (stderr m).

(** [cpu_add_mem]: the region goes to the front of the list in both
    branches; a RAM region at address 0 of at least 0x200 bytes becomes the
    shortcut buffer. *)
Definition cpu_add_mem (m : machine) (r : mem_t) : machine :=
  let shortcut :=
    match mem_type r with
    | MEM_TYPE_RAM =>
        if (mem_start r =? 0x0000) && (0x200 <=? mem_length r)
        then Some (mem_obj r) else memory (cpu m)
    | _ => memory (cpu m)
    end in
  mk_machine
    (mk_cpu (st m) (strict (cpu m)) (trace (cpu m)) (r :: mem (cpu m)) shortcut)
    (heap m) (stderr m).

(** [cpu_add_rom_data]: [data] is the address of the caller's buffer. *)
Definition cpu_add_rom_data (m : machine) (start length : Z) (data : nat) : machine :=
  cpu_add_mem m (mk_mem MEM_TYPE_ROM data start length (Some rom_read_handler) None).

(** [cpu_strict]: the parameter [strict] is not read. *)
Definition cpu_strict (m : machine) (strict_arg : bool) : machine :=
  mk_machine
    (mk_cpu (st m) true (trace (cpu m)) (mem (cpu m)) (memory (cpu m)))
    (heap m) (stderr m).

Definition cpu_trace (m : machine) (trace_arg : Z) : machine :=
  mk_machine
    (mk_cpu (st m) (strict (cpu m)) trace_arg (mem (cpu m)) (memory (cpu m)))
    (heap m) (stderr m).

Definition cpu_reset (m : machine) : option machine :=
  w ← mem_get_word m EWM_VECTOR_RES;
  let m := set_state (with_pc w) m in
  let m := fprintf_stderr
    ("CPU: cpu->state.pc = " +:+ hex false 4 (state_pc (st m)) +:+ newline) m in
  let m := set_state (with_a 0x00) m in
  let m := set_state (with_x 0x00) m in
  let m := set_state (with_y 0x00) m in
  let m := set_state (with_n 0) m in
  let m := set_state (with_v 0) m in
  let m := set_state (with_b 0) m in
  let m := set_state (with_d 0) m in
  let m := set_state (with_i 1) m in
  let m := set_state (with_z 0) m in
  let m := set_state (with_c 0) m in
  let m := set_state (with_sp 0xff) m in
  Some m.

Definition cpu_irq (m : machine) : option (Z * machine) :=
  if strict (cpu m) && (_cpu_stack_free m <? 3) then
    Some (EWM_CPU_ERR_STACK_OVERFLOW, m)
  else
    m ← _cpu_push_word m (state_pc (st m));
    m ← _cpu_push_byte m (_cpu_get_status (st m));
    let m := set_state (with_i 1) m in
    w ← mem_get_word m EWM_VECTOR_IRQ;
    let m := set_state (with_pc w) m in
    Some (0, m).

Definition cpu_nmi (m : machine) : option (Z * machine) :=
  if strict (cpu m) && (_cpu_stack_free m <? 3) then
    Some (EWM_CPU_ERR_STACK_OVERFLOW, m)
  else
    m ← _cpu_push_word m (state_pc (st m));
    m ← _cpu_push_byte m (_cpu_get_status (st m));
    let m := set_state (with_i 1) m in
    w ← mem_get_word m EWM_VECTOR_NMI;
    let m := set_state (with_pc w) m in
    Some (0, m).

(** The loop of [cpu_run].  It ends only on an error, so the model counts
    its rounds down from [fuel]; [None] is also the answer when the fuel
    does not suffice.  The result carries the locals [err] and
    [instruction_count] at the exit of the loop. *)
Fixpoint cpu_run_loop (fuel : nat) (m : machine) (instruction_count : Z)
    : option (Z * Z * machine) :=
  match fuel with
  | O => None
  | S fuel =>
      '(err, m) ← cpu_execute_instruction m;
      if err =? 0
      then cpu_run_loop fuel m (u64 (instruction_count + 1))
      else Some (err, instruction_count, m)
  end.

(** [cpu_run] returns an [int], the error; the count goes to stderr. *)
Definition cpu_run (fuel : nat) (m : machine) : option (Z * machine) :=
  '(err, instruction_count, m) ← cpu_run_loop fuel m 0;
  let m := fprintf_stderr
    ("Executed " +:+ pretty (int64 instruction_count) +:+ " instructions" +:+ newline) m in
  Some (err, m).


Definition cpu_step (m : machine) : option (Z * machine) :=
  cpu_execute_instruction m.

(** [executes k m m']: [k] instructions in a row are executed from [m]
    without error and leave the machine [m']. *)
Inductive executes : nat → machine → machine → Prop :=
  | executes_O m : executes 0 m m
  | executes_S k m m1 m2 :
      cpu_execute_instruction m = Some (0, m1) →
      executes k m1 m2 →
      executes (S k) m m2.

(** The shortcut buffer is there and holds the zero page and the stack
    page, as [cpu_add_mem] sets it up. *)
Definition stack_page_mapped (m : machine) : Prop :=
  ∃ p buf, memory (cpu m) = Some p ∧ heap m !! p = Some buf ∧ (0x200 ≤ length buf)%nat.

(** ** A small machine to run the code on

    512 bytes of RAM at address 0 and a ROM in the last page, which holds
    a short program at 0xff00 and the three vectors; the opcode table knows
    a handful of opcodes, with stand-ins for their handlers. *)

Definition op_nop (m : machine) (oper : operand_t) : machine := m.

Definition op_lda (m : machine) (oper : operand_t) : machine :=
  match oper with oper_byte e => set_state (with_a e) m | _ => m end.

Definition op_jmp (m : machine) (oper : operand_t) : machine :=
  match oper with oper_word e => set_state (with_pc e) m | _ => m end.

Definition sample_instructions (opcode : Z) : cpu_instruction_t :=
  match opcode with
  | 0x00 => mk_instruction "BRK" 1 3 (Some op_nop)
  | 0x40 => mk_instruction "RTI" 1 (-3) (Some op_nop)
  | 0x4c => mk_instruction "JMP" 3 0 (Some op_jmp)
  | 0xa9 => mk_instruction "LDA" 2 0 (Some op_lda)
  | 0xea => mk_instruction "NOP" 1 0 (Some op_nop)
  | _ => mk_instruction "???" 1 0 None
  end.

Definition sample_ram : list Z := replicate 0x200 0.

(** NOP; LDA #$42; JMP $FF08; BRK; RTI; an opcode without handler. *)
Definition sample_rom : list Z :=
  [0xea; 0xa9; 0x42; 0x4c; 0x08; 0xff; 0x00; 0x40; 0x02]
  ++ replicate (0x100 - 9 - 6) 0
  ++ [0x00; 0x80; 0x34; 0x12; 0x00; 0x90].

Definition sample_machine : machine :=
  let m := mk_machine (mk_cpu (mk_state 0 0 0 0 0 0 0 0 0 0 0 0 0) false 0 [] None)
             {[ 0%nat := sample_ram; 1%nat := sample_rom ]} [] in
  let m := cpu_init m in
  let m := cpu_add_mem m
             (mk_mem MEM_TYPE_RAM 0 0x0000 0x200
                (Some ram_read_handler) (Some ram_write_handler)) in
  let m := cpu_add_rom_data m 0xff00 0x100 1 in
  m.

(** The sample machine about to execute at [pc] with stack pointer [sp]. *)
Definition sample_at (pc sp : Z) : machine :=
  set_state (with_sp sp) (set_state (with_pc pc) sample_machine).

(** The machine after the three pushes of an interrupt: [p] is the
    shortcut pointer and [buf] the buffer behind it beforehand. *)
Definition interrupt_pushed (p : nat) (buf : list Z) (m : machine) : machine :=
  let sp := state_sp (st m) in
  set_state (with_sp (u8 (sp - 3)))
    (set_heap
       (<[p := <[Z.to_nat (0x0100 + u8 (sp - 2)) := _cpu_get_status (st m)]>
                 (<[Z.to_nat (0x0100 + u8 (sp - 1)) := u8 (state_pc (st m))]>
                    (<[Z.to_nat (0x0100 + sp) := u8 (Z.shiftr (state_pc (st m)) 8)]> buf))]>
          (heap m)) m).

(** The sequence that [cpu_irq] and [cpu_nmi] share; they differ in the
    vector only. *)
Definition interrupt_sequence (vector : Z) (m : machine) : option (Z * machine) :=
  if strict (cpu m) && (_cpu_stack_free m <? 3) then
    Some (EWM_CPU_ERR_STACK_OVERFLOW, m)
  else
    m ← _cpu_push_word m (state_pc (st m));
    m ← _cpu_push_byte m (_cpu_get_status (st m));
    let m := set_state (with_i 1) m in
    w ← mem_get_word m vector;
    let m := set_state (with_pc w) m in
    Some (0, m).

(** ** Regions registered by cpu.c (lines 322-402) *)

(** [_ram_write] (cpu.c, lines 328-330):
    [((uint8_t * ) mem->obj)[addr - mem->start] = b]. *)
Definition _ram_write (h : gmap nat (list Z)) (r : mem_t) (addr : Z) (b : Z)
    : option (gmap nat (list Z)) :=
  buf ← h !! mem_obj r;
  if decide (0 ≤ addr - mem_start r ∧ (Z.to_nat (addr - mem_start r) < length buf)%nat)
  then Some (<[mem_obj r := <[Z.to_nat (addr - mem_start r) := b]> buf]> h)
  else None.

(** [cpu_add_ram] (cpu.c, lines 332-342), when both allocations succeed:
    [malloc] hands out an address [p] that is not in use, for a buffer of
    [length] bytes whose contents are not determined.  The region record
    itself is a value of the list [mem]. *)
Inductive cpu_add_ram (m : machine) (start length : Z) : machine → Prop :=
  | cpu_add_ram_malloc (p : nat) (contents : list Z) :
      heap m !! p = None →
      List.length contents = Z.to_nat length →
      Forall (λ b, 0 ≤ b < 0x100) contents →
      cpu_add_ram m start length
        (cpu_add_mem (set_heap (<[p := contents]> (heap m)) m)
           (mk_mem MEM_TYPE_RAM p start length
              (Some ram_read_handler) (Some ram_write_handler))).

(** [cpu_add_iom] (cpu.c, lines 392-402); [obj] is the caller's handle and
    a handler is [None] when the caller passes NULL. *)
Definition cpu_add_iom (m : machine) (start length : Z) (obj : nat)
    (read_handler : option (Z → Z)) (write_handler : option mem_write_handler_t)
    : machine :=
  cpu_add_mem m
    (mk_mem MEM_TYPE_IOM obj start length (iom_read_handler <$> read_handler) write_handler).

(** What the operating system answers to the calls of [cpu_add_rom_file]:
    [open] fails, or [fstat] fails, or the file has [st_size] bytes and
    [read] returns [nread] after leaving [data] in the buffer. *)
Inductive rom_file_t :=
  | open_fails
  | fstat_fails
  | rom_file (st_size : Z) (data : list Z) (nread : Z).

(** [cpu_add_rom_file] (cpu.c, lines 362-388), with the answers [file] in
    place of the path and [p] the address [malloc] returns.  The buffer is
    not freed when the read comes short. *)
Definition cpu_add_rom_file (m : machine) (start : Z) (file : rom_file_t) (p : nat)
    : machine :=
  match file with
  | open_fails => m
  | fstat_fails => m
  | rom_file st_size data nread =>
      if 64 * 1024 - start <? st_size then m
      else
        let m := set_heap (<[p := data]> (heap m)) m in
        if negb (nread =? st_size) then m
        else cpu_add_rom_data m start (u16 st_size) p
  end.

(** A second machine: the RAM holds JMP $0010 at 0x0010 and PC points
    there. *)
Definition sample_spin : machine :=
  let ram := replicate 0x10 0 ++ [0x4c; 0x10; 0x00] ++ replicate (0x200 - 0x13) 0 in
  let m := mk_machine (mk_cpu (mk_state 0 0 0 0 0 0 0 0 0 0 0 0 0) false 0 [] None)
             {[ 0%nat := ram; 1%nat := sample_rom ]} [] in
  let m := cpu_init m in
  let m := cpu_add_mem m
             (mk_mem MEM_TYPE_RAM 0 0x0000 0x200
                (Some ram_read_handler) (Some ram_write_handler)) in
  let m := cpu_add_rom_data m 0xff00 0x100 1 in
  set_state (with_sp 0xff) (set_state (with_pc 0x0010) m).

(** * Properties *)

(** ** Machine integers *)

Lemma u8_range e : 0 ≤ u8 e < 0x100.
Proof. unfold u8. apply Z.mod_pos_bound. lia. Qed.

Lemma u8_small e : 0 ≤ e < 0x100 → u8 e = e.
Proof. unfold u8. intros. by apply Z.mod_small. Qed.

Lemma u16_small e : 0 ≤ e < 0x10000 → u16 e = e.
Proof. unfold u16. intros. by apply Z.mod_small. Qed.

Lemma u8_pred_succ e : u8 (u8 (e - 1) + 1) = u8 e.
Proof. unfold u8. rewrite Zplus_mod_idemp_l. f_equal. lia. Qed.

Lemma u8_sub_sub e j k : u8 (u8 (e - j) - k) = u8 (e - (j + k)).
Proof. unfold u8. rewrite Zminus_mod_idemp_l. f_equal. lia. Qed.

Lemma u8_sub_add e j k : u8 (u8 (e - j) + k) = u8 (e - (j - k)).
Proof. unfold u8. rewrite Zplus_mod_idemp_l. f_equal. lia. Qed.

(** Stack pointer arithmetic: [u8 (u8 (sp - 1) - 1)] to [u8 (sp - 2)] and
    the like. *)
Ltac u8_simpl :=
  repeat (rewrite u8_sub_sub || rewrite u8_sub_add);
  repeat match goal with
    | |- context [u8 (_ - ?k)] =>
        progress (let k' := eval vm_compute in k in change k with k')
    end;
  rewrite ?Z.sub_0_r.

Lemma u16_succ_succ e : u16 (u16 (e + 1) + 1) = u16 (e + 2).
Proof. unfold u16. rewrite Zplus_mod_idemp_l. f_equal. lia. Qed.

(** A word is its high byte over its low byte. *)
Lemma word_of_bytes w :
  0 ≤ w < 0x10000 → u16 (Z.lor (u8 w) (Z.shiftl (u8 (Z.shiftr w 8)) 8)) = w.
Proof.
  intros Hw. unfold u8.
  rewrite (Z.mod_small (Z.shiftr w 8)).
  2: { rewrite Z.shiftr_div_pow2 by lia. change (2 ^ 8) with 0x100.
       split; [apply Z.div_pos; lia | apply Z.div_lt_upper_bound; lia]. }
  change 0x100 with (2 ^ 8). rewrite <- Z.land_ones by lia.
  rewrite <- Z.ldiff_ones_r by lia.
  rewrite Z.lor_comm, Z.lor_ldiff_and. by apply u16_small.
Qed.

(** ** The packed status byte *)

(** Bit 5 of a packed byte is set whatever the flags are, and so is bit 4:
    both come from the constant 0x30. *)
Lemma cpu_get_status_fixed_bits st :
  Z.testbit (_cpu_get_status st) 5 = true ∧ Z.testbit (_cpu_get_status st) 4 = true.
Proof.
  unfold _cpu_get_status, ne0.
  repeat match goal with |- context [?e =? 0] => destruct (e =? 0) end;
    by vm_compute.
Qed.

(** The bits 7, 6, 3, 2, 1 and 0 are the flags N, V, D, I, Z and C. *)
Lemma cpu_get_status_flag_bits st :
  Z.testbit (_cpu_get_status st) 7 = flag_set (state_n st)
  ∧ Z.testbit (_cpu_get_status st) 6 = flag_set (state_v st)
  ∧ Z.testbit (_cpu_get_status st) 3 = flag_set (state_d st)
  ∧ Z.testbit (_cpu_get_status st) 2 = flag_set (state_i st)
  ∧ Z.testbit (_cpu_get_status st) 1 = flag_set (state_z st)
  ∧ Z.testbit (_cpu_get_status st) 0 = flag_set (state_c st).
Proof.
  unfold _cpu_get_status, ne0, flag_set.
  repeat match goal with |- context [?e =? 0] => destruct (e =? 0) end;
    by vm_compute.
Qed.

(** Unpacking a packed byte gives back N, V, D, I, Z and C, and sets B. *)
Lemma cpu_status_round_trip st :
  let st' := _cpu_set_status st (_cpu_get_status st) in
  flag_set (state_n st') = flag_set (state_n st)
  ∧ flag_set (state_v st') = flag_set (state_v st)
  ∧ flag_set (state_d st') = flag_set (state_d st)
  ∧ flag_set (state_i st') = flag_set (state_i st)
  ∧ flag_set (state_z st') = flag_set (state_z st)
  ∧ flag_set (state_c st') = flag_set (state_c st)
  ∧ flag_set (state_b st') = true.
Proof.
  unfold _cpu_set_status, _cpu_get_status, ne0, flag_set; simpl.
  repeat match goal with |- context [?f st =? 0] => destruct (f st =? 0) end;
    by vm_compute.
Qed.

(** C1.  The round trip through the packed status byte is claimed to give
    back all seven flags, with bit 5 of the byte always 1 and bit 4 equal
    to B.  On the state with every flag clear the code packs 0x30: bit 5 is
    set, but so is bit 4 although B is clear, and unpacking that byte
    leaves B set (0x10). *)
Lemma cpu_status_round_trip_clear_b :
  let st0 := mk_state 0 0 0 0 0xff 0 0 0 0 0 0 0 0 in
  _cpu_get_status st0 = 0x30
  ∧ Z.testbit (_cpu_get_status st0) 5 = true
  ∧ flag_set (state_b st0) = false
  ∧ Z.testbit (_cpu_get_status st0) 4 = true
  ∧ state_b (_cpu_set_status st0 (_cpu_get_status st0)) = 0x10
  ∧ flag_set (state_b (_cpu_set_status st0 (_cpu_get_status st0))) = true.
Proof. by vm_compute. Qed.

(** ** Runtime toggles *)

Lemma cpu_trace_stores m e : trace (cpu (cpu_trace m e)) = e.
Proof. reflexivity. Qed.

(** C2.  [cpu_strict] is claimed to store its argument.  Called with
    [false] it leaves strict mode on, on every machine: the argument is
    never read. *)
Lemma cpu_strict_false_turns_on m :
  strict (cpu (cpu_strict m false)) = true.
Proof. reflexivity. Qed.

(** ** Memory *)

Lemma mem_get_byte_set_state f m addr :
  mem_get_byte (set_state f m) addr = mem_get_byte m addr.
Proof. reflexivity. Qed.

Lemma mem_get_word_set_state f m addr :
  mem_get_word (set_state f m) addr = mem_get_word m addr.
Proof. reflexivity. Qed.

Lemma mem_get_byte_direct_set_state f m addr :
  _mem_get_byte_direct (set_state f m) addr = _mem_get_byte_direct m addr.
Proof. reflexivity. Qed.

(** A direct write succeeds exactly when the shortcut buffer is there and
    long enough, and then it updates that buffer in place. *)
Lemma mem_set_byte_direct_Some m addr e m' :
  _mem_set_byte_direct m addr e = Some m' ↔
  ∃ p buf, memory (cpu m) = Some p ∧ heap m !! p = Some buf
    ∧ (Z.to_nat addr < length buf)%nat
    ∧ m' = set_heap (<[p := <[Z.to_nat addr := e]> buf]> (heap m)) m.
Proof.
  unfold _mem_set_byte_direct. split.
  - destruct (memory (cpu m)) as [p|] eqn:Hp; [|done]. simpl.
    destruct (heap m !! p) as [buf|] eqn:Hbuf; [|done]. simpl.
    case_decide; [|done]. intros [= <-]. by exists p, buf.
  - intros (p & buf & Hp & Hbuf & Hlt & ->).
    rewrite Hp; simpl. rewrite Hbuf; simpl. by rewrite decide_True.
Qed.

Lemma cpu_push_byte_Some m e m' :
  _cpu_push_byte m e = Some m' ↔
  ∃ p buf, memory (cpu m) = Some p ∧ heap m !! p = Some buf
    ∧ (Z.to_nat (0x0100 + state_sp (st m)) < length buf)%nat
    ∧ m' = set_state (with_sp (u8 (state_sp (st m) - 1)))
             (set_heap (<[p := <[Z.to_nat (0x0100 + state_sp (st m)) := e]> buf]> (heap m)) m).
Proof.
  unfold _cpu_push_byte. split.
  - destruct (_mem_set_byte_direct _ _ _) as [m1|] eqn:Hset; [|done].
    apply mem_set_byte_direct_Some in Hset as (p & buf & ? & ? & ? & ->).
    intros [= <-]. by exists p, buf.
  - intros (p & buf & Hp & Hbuf & Hlt & ->).
    pose proof (proj2 (mem_set_byte_direct_Some m (0x0100 + state_sp (st m)) e _)
      (ex_intro _ p (ex_intro _ buf (conj Hp (conj Hbuf (conj Hlt eq_refl)))))) as Hset.
    by rewrite Hset.
Qed.

(** ** The stack *)

Lemma cpu_push_byte_eq m e p buf :
  memory (cpu m) = Some p → heap m !! p = Some buf →
  (Z.to_nat (0x0100 + state_sp (st m)) < length buf)%nat →
  _cpu_push_byte m e =
    Some (set_state (with_sp (u8 (state_sp (st m) - 1)))
            (set_heap (<[p := <[Z.to_nat (0x0100 + state_sp (st m)) := e]> buf]> (heap m)) m)).
Proof. intros. apply cpu_push_byte_Some. by exists p, buf. Qed.

(** The three pushes of an interrupt succeed exactly when the shortcut
    buffer holds the three places, and then they leave [interrupt_pushed]. *)
Lemma interrupt_pushes_Some m m' :
  (m1 ← _cpu_push_word m (state_pc (st m)); _cpu_push_byte m1 (_cpu_get_status (st m1)))
    = Some m' ↔
  ∃ p buf, memory (cpu m) = Some p ∧ heap m !! p = Some buf
    ∧ (Z.to_nat (0x0100 + state_sp (st m)) < length buf)%nat
    ∧ (Z.to_nat (0x0100 + u8 (state_sp (st m) - 1)) < length buf)%nat
    ∧ (Z.to_nat (0x0100 + u8 (state_sp (st m) - 2)) < length buf)%nat
    ∧ m' = interrupt_pushed p buf m.
Proof.
  unfold _cpu_push_word. split.
  - destruct (_cpu_push_byte m _) as [m1|] eqn:H1; [simpl|done].
    destruct (_cpu_push_byte m1 _) as [m2|] eqn:H2; [simpl|done].
    intros H3.
    apply cpu_push_byte_Some in H1 as (p & buf & Hp & Hbuf & Hlt1 & ->).
    apply cpu_push_byte_Some in H2 as (p2 & buf2 & Hp2 & Hbuf2 & Hlt2 & ->).
    apply cpu_push_byte_Some in H3 as (p3 & buf3 & Hp3 & Hbuf3 & Hlt3 & ->).
    simpl in Hp2, Hp3. simplify_eq.
    simpl in Hbuf2, Hbuf3, Hlt2, Hlt3.
    rewrite lookup_insert_eq in Hbuf2. simplify_eq.
    rewrite lookup_insert_eq in Hbuf3. simplify_eq.
    rewrite !length_insert in *. rewrite u8_sub_sub in Hlt3.
    exists p, buf. repeat split; try done.
    unfold interrupt_pushed, set_state, set_heap; simpl.
    rewrite !insert_insert_eq, !u8_sub_sub. done.
  - intros (p & buf & Hp & Hbuf & Hlt1 & Hlt2 & Hlt3 & ->).
    rewrite (cpu_push_byte_eq m _ p buf) by done. simpl.
    erewrite cpu_push_byte_eq;
      [|done|simpl; apply lookup_insert_eq|by rewrite length_insert].
    simpl.
    erewrite cpu_push_byte_eq;
      [|done|simpl; apply lookup_insert_eq|by rewrite !length_insert, u8_sub_sub].
    unfold interrupt_pushed, set_state, set_heap; simpl.
    rewrite !insert_insert_eq, !u8_sub_sub. done.
Qed.

Lemma cpu_pull_byte_eq m p buf e :
  memory (cpu m) = Some p → heap m !! p = Some buf →
  buf !! Z.to_nat (0x0100 + u8 (state_sp (st m) + 1)) = Some e →
  _cpu_pull_byte m = Some (e, set_state (with_sp (u8 (state_sp (st m) + 1))) m).
Proof.
  intros Hp Hbuf He. unfold _cpu_pull_byte, _mem_get_byte_direct. simpl.
  rewrite Hp. simpl. rewrite Hbuf. simpl. by rewrite He.
Qed.

Lemma u8_pred_ne e j : 0 ≤ e < 0x100 → 0 < j < 0x100 → u8 (e - j) ≠ e.
Proof. unfold u8. intros He Hj. clear -He Hj. Z.div_mod_to_equations. lia. Qed.

Lemma u8_pred_pred_ne e : 0 ≤ e < 0x100 → u8 (e - 1) ≠ u8 (e - 2).
Proof. unfold u8. intros He. clear -He. Z.div_mod_to_equations. lia. Qed.

Lemma with_sp_same st : with_sp (state_sp st) st = st.
Proof. by destruct st. Qed.

(** C8.  On a machine whose stack page is mapped, for every stack pointer,
    every byte [v] and every word [w]: pushing never fails and moves SP
    down by one modulo 256 (from 0x00 to 0xff), pulling after the push
    gives [v] back and restores SP (and with it the whole register file);
    the same holds for [w] with [_cpu_push_word] and [_cpu_pull_word]. *)
Theorem cpu_push_pull_round_trip m v w :
  stack_page_mapped m →
  0 ≤ state_sp (st m) < 0x100 →
  0 ≤ v < 0x100 →
  0 ≤ w < 0x10000 →
  (∃ m1 m2,
      _cpu_push_byte m v = Some m1
      ∧ state_sp (st m1) = u8 (state_sp (st m) - 1)
      ∧ (state_sp (st m) = 0x00 → state_sp (st m1) = 0xff)
      ∧ _cpu_pull_byte m1 = Some (v, m2)
      ∧ state_sp (st m2) = state_sp (st m)
      ∧ st m2 = st m)
  ∧ (∃ m1 m2,
      _cpu_push_word m w = Some m1
      ∧ state_sp (st m1) = u8 (state_sp (st m) - 2)
      ∧ _cpu_pull_word m1 = Some (w, m2)
      ∧ state_sp (st m2) = state_sp (st m)
      ∧ st m2 = st m).
Proof.
  intros (p & buf & Hp & Hbuf & Hlen) Hsp Hv Hw.
  pose proof (u8_range (state_sp (st m) - 1)) as Hsp1.
  split.
  - eexists _, _. split; [by apply (cpu_push_byte_eq m v p buf); [| |lia]|].
    split; [done|]. split; [by intros ->|].
    unfold _cpu_pull_byte, _mem_get_byte_direct; simpl.
    rewrite Hp; simpl. rewrite lookup_insert_eq; simpl.
    rewrite u8_pred_succ, (u8_small (state_sp (st m))) by done.
    rewrite list_lookup_insert_eq by lia.
    split; [done|]. simpl. split; [done|]. exact (with_sp_same (st m)).
  - unfold _cpu_push_word, _cpu_pull_word.
    rewrite (cpu_push_byte_eq m _ p buf) by (done || lia). simpl.
    erewrite cpu_push_byte_eq;
      [|done|simpl; apply lookup_insert_eq|rewrite length_insert; simpl; lia].
    simpl. eexists _, _. split; [done|]. simpl.
    split; [by u8_simpl|].
    erewrite (cpu_pull_byte_eq _ p _ (u8 w));
      [|done|simpl; apply lookup_insert_eq|].
    2: { simpl. u8_simpl. apply list_lookup_insert_eq. rewrite length_insert. lia. }
    simpl.
    erewrite (cpu_pull_byte_eq _ p _ (u8 (Z.shiftr w 8)));
      [|done|simpl; apply lookup_insert_eq|].
    2: { simpl. u8_simpl. rewrite u8_small by done.
         rewrite list_lookup_insert_ne.
         - apply list_lookup_insert_eq. lia.
         - pose proof (u8_pred_ne (state_sp (st m)) 1 Hsp). lia. }
    simpl. rewrite word_of_bytes by done. u8_simpl. rewrite u8_small by done.
    split; [done|]. split; [done|]. exact (with_sp_same (st m)).
Qed.

(** ** Interrupts *)

Lemma cpu_irq_sequence m : cpu_irq m = interrupt_sequence EWM_VECTOR_IRQ m.
Proof. reflexivity. Qed.

Lemma cpu_nmi_sequence m : cpu_nmi m = interrupt_sequence EWM_VECTOR_NMI m.
Proof. reflexivity. Qed.

Lemma interrupt_sequence_refused vector m :
  strict (cpu m) = true → _cpu_stack_free m < 3 →
  interrupt_sequence vector m = Some (EWM_CPU_ERR_STACK_OVERFLOW, m).
Proof.
  intros Hstrict Hfree. unfold interrupt_sequence. rewrite Hstrict. simpl.
  by rewrite (proj2 (Z.ltb_lt _ _) Hfree).
Qed.

(** After [cpu_strict] has been called with [false] the stack check of an
    interrupt is still made. *)
Lemma cpu_strict_false_keeps_check m :
  _cpu_stack_free m < 3 →
  cpu_irq (cpu_strict m false) = Some (EWM_CPU_ERR_STACK_OVERFLOW, cpu_strict m false).
Proof. intros Hfree. rewrite cpu_irq_sequence. by apply interrupt_sequence_refused. Qed.

Lemma interrupt_sequence_taken vector m p buf w :
  strict (cpu m) = false ∨ 3 ≤ _cpu_stack_free m →
  memory (cpu m) = Some p → heap m !! p = Some buf →
  (Z.to_nat (0x0100 + state_sp (st m)) < length buf)%nat →
  (Z.to_nat (0x0100 + u8 (state_sp (st m) - 1)) < length buf)%nat →
  (Z.to_nat (0x0100 + u8 (state_sp (st m) - 2)) < length buf)%nat →
  mem_get_word (interrupt_pushed p buf m) vector = Some w →
  interrupt_sequence vector m =
    Some (0, set_state (with_pc w) (set_state (with_i 1) (interrupt_pushed p buf m))).
Proof.
  intros Hgo Hp Hbuf H1 H2 H3 Hw. unfold interrupt_sequence.
  replace (strict (cpu m) && (_cpu_stack_free m <? 3)) with false.
  2: { destruct Hgo as [->|Hfree]; [done|].
       rewrite (proj2 (Z.ltb_ge _ _) Hfree). by rewrite andb_false_r. }
  pose proof (proj2 (interrupt_pushes_Some m (interrupt_pushed p buf m))) as Hpush.
  destruct (_cpu_push_word m (state_pc (st m))) as [m1|]; simpl in *.
  - rewrite Hpush by (by exists p, buf). simpl.
    rewrite mem_get_word_set_state, Hw. done.
  - discriminate Hpush. by exists p, buf.
Qed.

Lemma interrupt_sequence_Some vector m r m' :
  interrupt_sequence vector m = Some (r, m') →
  (strict (cpu m) = true ∧ _cpu_stack_free m < 3
     ∧ r = EWM_CPU_ERR_STACK_OVERFLOW ∧ m' = m)
  ∨ ((strict (cpu m) = false ∨ 3 ≤ _cpu_stack_free m) ∧ r = 0
     ∧ ∃ p buf w, memory (cpu m) = Some p ∧ heap m !! p = Some buf
         ∧ (Z.to_nat (0x0100 + state_sp (st m)) < length buf)%nat
         ∧ (Z.to_nat (0x0100 + u8 (state_sp (st m) - 1)) < length buf)%nat
         ∧ (Z.to_nat (0x0100 + u8 (state_sp (st m) - 2)) < length buf)%nat
         ∧ mem_get_word (interrupt_pushed p buf m) vector = Some w
         ∧ m' = set_state (with_pc w) (set_state (with_i 1) (interrupt_pushed p buf m))).
Proof.
  unfold interrupt_sequence.
  destruct (strict (cpu m)) eqn:Hstrict; simpl;
    [destruct (Z.ltb_spec (_cpu_stack_free m) 3) as [Hfree|Hfree]|].
  { intros [= <- <-]. by left. }
  all: intros Hrun; right; (split; [by auto|]).
  all: pose proof (λ m2, proj1 (interrupt_pushes_Some m m2)) as Hpush.
  all: destruct (_cpu_push_word m (state_pc (st m))) as [m1|]; simpl in *; [|done].
  all: destruct (_cpu_push_byte m1 _) as [m2|]; simpl in *; [|done].
  all: destruct (Hpush m2 eq_refl) as (p & buf & Hp & Hbuf & H1 & H2 & H3 & ->).
  all: rewrite mem_get_word_set_state in Hrun.
  all: destruct (mem_get_word _ vector) as [w|] eqn:Hw; simpl in Hrun; [|done].
  all: injection Hrun as <- <-.
  all: split; [done|]; by exists p, buf, w.
Qed.

(** Whether a bus read is defined depends on the regions and on the
    lengths of the buffers only, not on what the buffers hold. *)
Lemma mem_get_byte_defined m m' addr :
  mem (cpu m') = mem (cpu m) →
  (∀ q, length <$> heap m' !! q = length <$> heap m !! q) →
  is_Some (mem_get_byte m addr) → is_Some (mem_get_byte m' addr).
Proof.
  intros Hmem Hshape. unfold mem_get_byte. rewrite Hmem.
  destruct (mem_resolve (mem (cpu m)) addr) as [r|]; simpl; [|done].
  destruct (mem_read_handler r) as [f|]; simpl; [|done].
  assert (∀ k, is_Some (heap m !! mem_obj r ≫= λ buf : list Z, buf !! k) →
               is_Some (heap m' !! mem_obj r ≫= λ buf : list Z, buf !! k)) as Hbuf.
  { intros k. specialize (Hshape (mem_obj r)).
    destruct (heap m !! mem_obj r) as [buf|], (heap m' !! mem_obj r) as [buf'|];
      simpl in *; try done.
    injection Hshape as Hlen. rewrite !lookup_lt_is_Some. lia. }
  destruct f; simpl; [| |done].
  all: unfold _ram_read, _rom_read; intros Hdef.
  all: destruct (decide (0 ≤ addr - mem_start r)).
  all: try (destruct (heap m !! mem_obj r); simpl in Hdef; by destruct Hdef).
  all: specialize (Hbuf (Z.to_nat (addr - mem_start r))).
  all: destruct (heap m !! mem_obj r) as [buf|], (heap m' !! mem_obj r) as [buf'|];
    simpl in *; auto.
Qed.

Lemma mem_get_word_defined m m' addr :
  mem (cpu m') = mem (cpu m) →
  (∀ q, length <$> heap m' !! q = length <$> heap m !! q) →
  is_Some (mem_get_word m addr) → is_Some (mem_get_word m' addr).
Proof.
  intros Hmem Hshape. unfold mem_get_word.
  pose proof (mem_get_byte_defined m m' addr Hmem Hshape) as Hlo.
  pose proof (mem_get_byte_defined m m' (u16 (addr + 1)) Hmem Hshape) as Hhi.
  destruct (mem_get_byte m addr); simpl; [|by intros [? ?]].
  destruct (mem_get_byte m (u16 (addr + 1))); simpl; [|by intros [? ?]].
  intros _. destruct Hlo as [lo ->]; [done|]. destruct Hhi as [hi ->]; [done|].
  done.
Qed.

Lemma interrupt_pushed_shape m p buf q :
  heap m !! p = Some buf →
  length <$> heap (interrupt_pushed p buf m) !! q = length <$> heap m !! q.
Proof.
  intros Hbuf. unfold interrupt_pushed; simpl.
  destruct (decide (p = q)) as [<-|Hne].
  - rewrite lookup_insert_eq, Hbuf. simpl. by rewrite !length_insert.
  - by rewrite lookup_insert_ne.
Qed.

(** The three bytes of an interrupt frame: the high byte of PC where SP
    pointed, the low byte below it, the packed status byte below that. *)
Lemma interrupt_pushed_reads m p buf :
  memory (cpu m) = Some p → (0x200 ≤ length buf)%nat →
  0 ≤ state_sp (st m) < 0x100 →
  let m' := interrupt_pushed p buf m in
  _mem_get_byte_direct m' (0x0100 + state_sp (st m))
    = Some (u8 (Z.shiftr (state_pc (st m)) 8))
  ∧ _mem_get_byte_direct m' (0x0100 + u8 (state_sp (st m) - 1))
    = Some (u8 (state_pc (st m)))
  ∧ _mem_get_byte_direct m' (0x0100 + u8 (state_sp (st m) - 2))
    = Some (_cpu_get_status (st m)).
Proof.
  intros Hp Hlen Hsp.
  pose proof (u8_range (state_sp (st m) - 1)).
  pose proof (u8_range (state_sp (st m) - 2)).
  pose proof (u8_pred_ne (state_sp (st m)) 1 Hsp).
  pose proof (u8_pred_ne (state_sp (st m)) 2 Hsp).
  pose proof (u8_pred_pred_ne (state_sp (st m)) Hsp).
  unfold _mem_get_byte_direct, interrupt_pushed; simpl.
  rewrite Hp; simpl. rewrite lookup_insert_eq; simpl.
  repeat split.
  - rewrite !list_lookup_insert_ne by lia. apply list_lookup_insert_eq. lia.
  - rewrite list_lookup_insert_ne by lia.
    apply list_lookup_insert_eq. rewrite length_insert. lia.
  - apply list_lookup_insert_eq. rewrite !length_insert. lia.
Qed.

(** C6.  On a machine whose stack page is mapped and whose IRQ vector can
    be read: when strict mode is off or at least 3 bytes of stack are free,
    [cpu_irq] returns 0; it has stored the high byte of PC where SP
    pointed, the low byte of PC below it and the packed status byte below
    that, it has moved SP down by 3, set the interrupt-disable flag and
    loaded PC with the word at the IRQ vector.  With PC = 0x0400 before,
    the stack page read upward from the new top of stack holds the status
    byte, then 0x00, then 0x04.  In strict mode with fewer than 3 bytes
    free, [cpu_irq] returns the stack overflow error and the machine is
    unchanged. *)
Theorem cpu_irq_frame_and_vector m :
  stack_page_mapped m →
  0 ≤ state_sp (st m) < 0x100 →
  is_Some (mem_get_word m EWM_VECTOR_IRQ) →
  (strict (cpu m) = false ∨ 3 ≤ _cpu_stack_free m →
     ∃ m', cpu_irq m = Some (0, m')
       ∧ _mem_get_byte_direct m' (0x0100 + state_sp (st m))
           = Some (u8 (Z.shiftr (state_pc (st m)) 8))
       ∧ _mem_get_byte_direct m' (0x0100 + u8 (state_sp (st m) - 1))
           = Some (u8 (state_pc (st m)))
       ∧ _mem_get_byte_direct m' (0x0100 + u8 (state_sp (st m) - 2))
           = Some (_cpu_get_status (st m))
       ∧ state_sp (st m') = u8 (state_sp (st m) - 3)
       ∧ state_i (st m') = 1
       ∧ mem_get_word m' EWM_VECTOR_IRQ = Some (state_pc (st m'))
       ∧ (state_pc (st m) = 0x0400 →
            _mem_get_byte_direct m' (0x0100 + u8 (state_sp (st m') + 1))
              = Some (_cpu_get_status (st m))
            ∧ _mem_get_byte_direct m' (0x0100 + u8 (state_sp (st m') + 2)) = Some 0x00
            ∧ _mem_get_byte_direct m' (0x0100 + u8 (state_sp (st m') + 3)) = Some 0x04))
  ∧ (strict (cpu m) = true → _cpu_stack_free m < 3 →
     cpu_irq m = Some (EWM_CPU_ERR_STACK_OVERFLOW, m)).
Proof.
  intros (p & buf & Hp & Hbuf & Hlen) Hsp Hvec. split.
  2: { intros. rewrite cpu_irq_sequence. by apply interrupt_sequence_refused. }
  intros Hgo.
  pose proof (u8_range (state_sp (st m) - 1)).
  pose proof (u8_range (state_sp (st m) - 2)).
  destruct (mem_get_word_defined m (interrupt_pushed p buf m) EWM_VECTOR_IRQ)
    as [w Hw]; [done|by intros; apply interrupt_pushed_shape|done|].
  destruct (interrupt_pushed_reads m p buf Hp Hlen Hsp) as (Hhi & Hlo & Hstatus).
  eexists. split.
  { rewrite cpu_irq_sequence.
    apply (interrupt_sequence_taken _ m p buf w); (done || lia). }
  rewrite !mem_get_byte_direct_set_state, mem_get_word_set_state. simpl.
  repeat split; try done.
  all: u8_simpl; rewrite ?(u8_small (state_sp (st m))) by done.
  all: match goal with Hpc : state_pc _ = _ |- _ =>
         by rewrite ?Hstatus, ?Hlo, ?Hhi, ?Hpc end.
Qed.

(** C10.  When [cpu_irq] or [cpu_nmi] returns 0, and 0 is not the code of
    the stack overflow error: A, X and Y and the flags N, V, B, D, Z and C
    are as before, SP is 3 lower modulo 256, the list of regions and the
    shortcut pointer are as before, and the heap differs from the one
    before in three bytes of the shortcut buffer at most, which lie in the
    stack page: the places SP, SP-1 and SP-2 (modulo 256) above 0x0100. *)
Theorem cpu_interrupt_frame_effect m m' :
  EWM_CPU_ERR_STACK_OVERFLOW ≠ 0 →
  0 ≤ state_sp (st m) < 0x100 →
  cpu_irq m = Some (0, m') ∨ cpu_nmi m = Some (0, m') →
  state_a (st m') = state_a (st m)
  ∧ state_x (st m') = state_x (st m)
  ∧ state_y (st m') = state_y (st m)
  ∧ state_n (st m') = state_n (st m)
  ∧ state_v (st m') = state_v (st m)
  ∧ state_b (st m') = state_b (st m)
  ∧ state_d (st m') = state_d (st m)
  ∧ state_z (st m') = state_z (st m)
  ∧ state_c (st m') = state_c (st m)
  ∧ state_sp (st m') = u8 (state_sp (st m) - 3)
  ∧ mem (cpu m') = mem (cpu m)
  ∧ memory (cpu m') = memory (cpu m)
  ∧ ∃ p buf buf',
      memory (cpu m) = Some p ∧ heap m !! p = Some buf ∧ heap m' !! p = Some buf'
      ∧ length buf' = length buf
      ∧ (∀ q, q ≠ p → heap m' !! q = heap m !! q)
      ∧ (∀ addr, 0 ≤ addr →
           addr ≠ 0x0100 + state_sp (st m) →
           addr ≠ 0x0100 + u8 (state_sp (st m) - 1) →
           addr ≠ 0x0100 + u8 (state_sp (st m) - 2) →
           buf' !! Z.to_nat addr = buf !! Z.to_nat addr)
      ∧ 0x0100 ≤ 0x0100 + state_sp (st m) < 0x0200
      ∧ 0x0100 ≤ 0x0100 + u8 (state_sp (st m) - 1) < 0x0200
      ∧ 0x0100 ≤ 0x0100 + u8 (state_sp (st m) - 2) < 0x0200.
Proof.
  intros Herr Hsp Hrun.
  assert (∃ vector, interrupt_sequence vector m = Some (0, m')) as [vector Hseq].
  { destruct Hrun; [exists EWM_VECTOR_IRQ|exists EWM_VECTOR_NMI]; done. }
  apply interrupt_sequence_Some in Hseq
    as [(_ & _ & ? & _)|(_ & _ & p & buf & w & Hp & Hbuf & H1 & H2 & H3 & Hw & ->)];
    [done|].
  pose proof (u8_range (state_sp (st m) - 1)).
  pose proof (u8_range (state_sp (st m) - 2)).
  repeat (split; [done|]).
  eexists p, buf, _. split; [done|]. split; [done|].
  split; [apply lookup_insert_eq|]. split; [by rewrite !length_insert|].
  split; [by intros q Hq; apply lookup_insert_ne|].
  split; [|lia].
  intros addr Haddr Hne1 Hne2 Hne3.
  rewrite !list_lookup_insert_ne by lia. done.
Qed.

(** ** Reset *)

(** C7.  When the two bytes of the reset vector can be read, [cpu_reset]
    leaves PC equal to the little-endian word they form (0x1234 for the
    bytes 0x34, 0x12), SP = 0xff, the interrupt-disable flag set, the flags
    N, V, B, D, Z and C clear and A = X = Y = 0. *)
Theorem cpu_reset_state m lo hi :
  mem_get_byte m EWM_VECTOR_RES = Some lo →
  mem_get_byte m (EWM_VECTOR_RES + 1) = Some hi →
  ∃ m', cpu_reset m = Some m'
    ∧ state_pc (st m') = Z.lor lo (Z.shiftl hi 8)
    ∧ (lo = 0x34 → hi = 0x12 → state_pc (st m') = 0x1234)
    ∧ state_sp (st m') = 0xff
    ∧ state_i (st m') = 1 ∧ flag_set (state_i (st m')) = true
    ∧ state_n (st m') = 0 ∧ state_v (st m') = 0 ∧ state_b (st m') = 0
    ∧ state_d (st m') = 0 ∧ state_z (st m') = 0 ∧ state_c (st m') = 0
    ∧ state_a (st m') = 0 ∧ state_x (st m') = 0 ∧ state_y (st m') = 0.
Proof.
  intros Hlo Hhi. unfold cpu_reset, mem_get_word.
  rewrite Hlo. simpl. change (u16 (EWM_VECTOR_RES + 1)) with (EWM_VECTOR_RES + 1).
  rewrite Hhi. simpl. eexists. split; [done|]. simpl.
  repeat split; try done. by intros -> ->.
Qed.

(** ** The dispatcher *)

(** C9.  When the byte at PC is an opcode without handler,
    [cpu_execute_instruction] returns the unimplemented-instruction error
    and the machine it leaves is the machine it was given: registers,
    flags, PC, SP and memory are unchanged.  (With tracing on, the text of
    the instruction is formatted first; it has to be defined.) *)
Theorem cpu_execute_unimplemented m opcode :
  mem_get_byte m (state_pc (st m)) = Some opcode →
  ins_handler (instructions opcode) = None →
  (trace (cpu m) ≠ 0 → is_Some (cpu_format_instruction m)) →
  cpu_execute_instruction m = Some (EWM_CPU_ERR_UNIMPLEMENTED_INSTRUCTION, m).
Proof.
  intros Hop Hnull Htrace. unfold cpu_execute_instruction.
  destruct (Z.eqb_spec (trace (cpu m)) 0) as [_|Hon]; simpl.
  - rewrite Hop. simpl. by rewrite Hnull.
  - destruct (Htrace Hon) as [text ->]. simpl. rewrite Hop. simpl. by rewrite Hnull.
Qed.

(** C5.  In strict mode, for an opcode at PC that has a handler and whose
    descriptor declares the stack headroom [k]: if [k] is positive and the
    free stack space, which is SP, is below [k], the result is the stack
    overflow error; if [k] is negative and the used stack space, which is
    0xff - SP, is below [-k], the result is the stack underflow error; in
    both cases the machine is returned as it was.  So with SP = 0x02 an
    instruction that needs 3 bytes is refused with the overflow error. *)
Theorem cpu_execute_strict_stack_guard m opcode handler :
  strict (cpu m) = true →
  0 ≤ state_sp (st m) < 0x100 →
  mem_get_byte m (state_pc (st m)) = Some opcode →
  ins_handler (instructions opcode) = Some handler →
  (trace (cpu m) ≠ 0 → is_Some (cpu_format_instruction m)) →
  let k := ins_stack (instructions opcode) in
  _cpu_stack_free m = state_sp (st m)
  ∧ _cpu_stack_used m = 0xff - state_sp (st m)
  ∧ (0 < k → _cpu_stack_free m < k →
       cpu_execute_instruction m = Some (EWM_CPU_ERR_STACK_OVERFLOW, m))
  ∧ (k < 0 → _cpu_stack_used m < - k →
       cpu_execute_instruction m = Some (EWM_CPU_ERR_STACK_UNDERFLOW, m))
  ∧ (state_sp (st m) = 0x02 → k = 3 →
       cpu_execute_instruction m = Some (EWM_CPU_ERR_STACK_OVERFLOW, m)).
Proof.
  intros Hstrict Hsp Hop Hhandler Htrace k.
  assert (_cpu_stack_used m = 0xff - state_sp (st m)) as Hused.
  { unfold _cpu_stack_used. apply u8_small. lia. }
  assert (0 < k → _cpu_stack_free m < k →
          cpu_execute_instruction m = Some (EWM_CPU_ERR_STACK_OVERFLOW, m)) as Hover.
  { intros Hk Hfree. unfold cpu_execute_instruction.
    assert (∃ ti, (if trace (cpu m) =? 0 then Some None
                   else text ← cpu_format_instruction m; Some (Some text)) = Some ti)
      as [ti ->].
    { destruct (Z.eqb_spec (trace (cpu m)) 0) as [_|Hon]; [by eexists|].
      destruct (Htrace Hon) as [text ->]. by eexists. }
    simpl. rewrite Hop. simpl. rewrite Hhandler, Hstrict. fold k.
    rewrite (proj2 (Z.eqb_neq k 0)) by lia. simpl.
    rewrite (proj2 (Z.ltb_lt 0 k)) by lia.
    by rewrite (proj2 (Z.ltb_lt _ _) Hfree). }
  split; [done|]. split; [done|]. split; [done|]. split.
  - intros Hk Hless. unfold cpu_execute_instruction.
    assert (∃ ti, (if trace (cpu m) =? 0 then Some None
                   else text ← cpu_format_instruction m; Some (Some text)) = Some ti)
      as [ti ->].
    { destruct (Z.eqb_spec (trace (cpu m)) 0) as [_|Hon]; [by eexists|].
      destruct (Htrace Hon) as [text ->]. by eexists. }
    simpl. rewrite Hop. simpl. rewrite Hhandler, Hstrict. fold k.
    rewrite (proj2 (Z.eqb_neq k 0)) by lia. simpl.
    rewrite (proj2 (Z.ltb_ge 0 k)) by lia.
    by rewrite (proj2 (Z.ltb_lt _ _) Hless).
  - intros Hsp2 Hk. apply Hover; [lia|]. unfold _cpu_stack_free. lia.
Qed.

(** The tracer writes on stderr and nowhere else. *)
Lemma cpu_trace_line_frame i pc trace_instruction m m' :
  cpu_trace_line i pc trace_instruction m = Some m' →
  cpu m' = cpu m ∧ heap m' = heap m.
Proof.
  unfold cpu_trace_line. intros Hline.
  destruct (cpu_format_state m); simpl in Hline; [|done].
  destruct (cpu_format_stack m); simpl in Hline; [|done].
  repeat case_match; simplify_option_eq; done.
Qed.

(** C4.  Take error codes other than 0 and a descriptor of 1, 2 or 3
    bytes for the opcode at PC.  When [cpu_execute_instruction] returns 0,
    the opcode has a handler, and the CPU and memory it leaves are those
    the handler returned when called on the machine with PC already
    advanced by the descriptor's length: with no operand for 1 byte, with
    the byte at the old PC + 1 for 2 bytes, with the little-endian word at
    the old PC + 1 and PC + 2 for 3 bytes.  Nothing touches PC after the
    handler; only the trace line, if tracing is on, is added to stderr. *)
Theorem cpu_execute_advances_then_dispatches m m' opcode :
  EWM_CPU_ERR_UNIMPLEMENTED_INSTRUCTION ≠ 0 →
  EWM_CPU_ERR_STACK_OVERFLOW ≠ 0 →
  EWM_CPU_ERR_STACK_UNDERFLOW ≠ 0 →
  mem_get_byte m (state_pc (st m)) = Some opcode →
  1 ≤ ins_bytes (instructions opcode) ≤ 3 →
  cpu_execute_instruction m = Some (0, m') →
  let i := instructions opcode in
  let pc := state_pc (st m) in
  let advanced := set_state (with_pc (u16 (pc + ins_bytes i))) m in
  ∃ handler oper m1,
    ins_handler i = Some handler
    ∧ m1 = handler advanced oper
    ∧ match oper with
      | oper_none => ins_bytes i = 1
      | oper_byte b1 =>
          ins_bytes i = 2 ∧ mem_get_byte m (u16 (pc + 1)) = Some b1
      | oper_word w =>
          ins_bytes i = 3
          ∧ ∃ lo hi, mem_get_byte m (u16 (pc + 1)) = Some lo
              ∧ mem_get_byte m (u16 (pc + 2)) = Some hi
              ∧ w = Z.lor lo (Z.shiftl hi 8)
      end
    ∧ cpu m' = cpu m1
    ∧ heap m' = heap m1
    ∧ state_pc (st m') = state_pc (st m1)
    ∧ (trace (cpu m1) = 0 → m' = m1).
Proof.
  intros He1 He2 He3 Hop Hbytes Hrun i pc advanced.
  unfold cpu_execute_instruction in Hrun.
  destruct (if trace (cpu m) =? 0 then _ else _) as [ti|]; simpl in Hrun; [|done].
  rewrite Hop in Hrun. simpl in Hrun. fold i in Hrun.
  destruct (ins_handler i) as [handler|]; [|by simplify_eq].
  destruct (if strict (cpu m) && _ then _ else _) as [err|] eqn:Hrefused.
  { repeat case_match; simplify_eq. }
  rewrite Z.eqb_refl in Hrun. fold pc advanced in Hrun.
  assert (∃ oper,
    match oper with
    | oper_none => ins_bytes i = 1
    | oper_byte b1 => ins_bytes i = 2 ∧ mem_get_byte m (u16 (pc + 1)) = Some b1
    | oper_word w =>
        ins_bytes i = 3
        ∧ ∃ lo hi, mem_get_byte m (u16 (pc + 1)) = Some lo
            ∧ mem_get_byte m (u16 (pc + 2)) = Some hi
            ∧ w = Z.lor lo (Z.shiftl hi 8)
    end
    ∧ ∃ m2, (if trace (cpu (handler advanced oper)) =? 0
             then Some (handler advanced oper)
             else cpu_trace_line i pc ti (handler advanced oper)) = Some m2
            ∧ m' = m2) as (oper & Hoper & m2 & Hline & ->).
  { assert (ins_bytes i = 1 ∨ ins_bytes i = 2 ∨ ins_bytes i = 3)
      as [Hb|[Hb|Hb]] by (subst i; lia); rewrite Hb in Hrun; simpl in Hrun.
    - exists oper_none. split; [done|].
      destruct (if _ =? 0 then _ else _) as [m2|]; simpl in Hrun; [|done].
      exists m2. by simplify_eq.
    - change (mem_get_byte advanced) with (mem_get_byte m) in Hrun.
      destruct (mem_get_byte m (u16 (pc + 1))) as [b1|] eqn:Hb1; simpl in Hrun; [|done].
      exists (oper_byte b1). split; [done|].
      destruct (if _ =? 0 then _ else _) as [m2|]; simpl in Hrun; [|done].
      exists m2. by simplify_eq.
    - change (mem_get_word advanced) with (mem_get_word m) in Hrun.
      unfold mem_get_word in Hrun.
      rewrite u16_succ_succ in Hrun.
      destruct (mem_get_byte m (u16 (pc + 1))) as [lo|] eqn:Hlo; simpl in Hrun; [|done].
      destruct (mem_get_byte m (u16 (pc + 2))) as [hi|] eqn:Hhi; simpl in Hrun; [|done].
      exists (oper_word (Z.lor lo (Z.shiftl hi 8))).
      split; [by split; [|exists lo, hi]|].
      destruct (if _ =? 0 then _ else _) as [m2|]; simpl in Hrun; [|done].
      exists m2. by simplify_eq. }
  exists handler, oper, (handler advanced oper).
  split; [done|]. split; [done|]. split; [done|].
  destruct (Z.eqb_spec (trace (cpu (handler advanced oper))) 0) as [Hoff|Hon].
  - by simplify_eq.
  - apply cpu_trace_line_frame in Hline as [Hcpu Hheap].
    unfold st. rewrite Hcpu. done.
Qed.

(** ** The run loop *)

Lemma u64_succ count k : u64 (u64 (count + 1) + k) = u64 (count + (1 + k)).
Proof. unfold u64. rewrite Zplus_mod_idemp_l. f_equal. lia. Qed.

Lemma cpu_run_loop_executes k m m1 :
  executes k m m1 →
  ∀ err m2 fuel count,
    cpu_execute_instruction m1 = Some (err, m2) → err ≠ 0 → (k < fuel)%nat →
    0 ≤ count < 0x10000000000000000 →
    cpu_run_loop fuel m count = Some (err, u64 (count + Z.of_nat k), m2).
Proof.
  induction 1 as [m|k m m1 m2 Hstep _ IH]; intros err m3 fuel count Hlast Herr Hfuel Hcount.
  - destruct fuel as [|fuel]; [lia|]. simpl. rewrite Hlast. simpl.
    rewrite (proj2 (Z.eqb_neq err 0) Herr).
    unfold u64. rewrite Z.mod_small by lia. do 3 f_equal. lia.
  - destruct fuel as [|fuel]; [lia|]. simpl. rewrite Hstep. simpl.
    rewrite (IH err m3 fuel (u64 (count + 1)) Hlast Herr); [|lia|].
    + rewrite u64_succ. do 4 f_equal. lia.
    + unfold u64. apply Z.mod_pos_bound. lia.
Qed.

(** C3, as the code has it.  When [k] instructions in a row execute
    without error and the next execution returns the error [err], other
    than 0, then [cpu_run], given fuel for more than [k] rounds, returns
    [err] and nothing else; the count [k] (modulo 2^64, printed as a signed
    number) goes to stderr in the line "Executed k instructions", after
    whatever the instructions wrote. *)
Theorem cpu_run_returns_error_prints_count k m m1 err m2 fuel :
  executes k m m1 →
  cpu_execute_instruction m1 = Some (err, m2) →
  err ≠ 0 →
  (k < fuel)%nat →
  cpu_run_loop fuel m 0 = Some (err, u64 (Z.of_nat k), m2)
  ∧ cpu_run fuel m =
      Some (err,
            fprintf_stderr
              ("Executed " +:+ pretty (int64 (u64 (Z.of_nat k))) +:+ " instructions"
               +:+ newline) m2).
Proof.
  intros Hk Hlast Herr Hfuel.
  pose proof (cpu_run_loop_executes k m m1 Hk err m2 fuel 0 Hlast Herr Hfuel) as Hloop.
  rewrite Z.add_0_l in Hloop. unfold cpu_run. rewrite Hloop by lia. done.
Qed.

(** * Further properties of cpu.c *)

(** ** The status byte, the other way round *)

(** Packing after unpacking: for every byte [status], the flags that
    [_cpu_set_status] reads from it pack to [status] with the bits 5 and 4
    set, whatever the state was before. *)
Theorem cpu_set_get_status st status :
  0 ≤ status < 0x100 →
  _cpu_get_status (_cpu_set_status st status) = Z.lor status 0x30.
Proof.
  intros Hstatus.
  change (_cpu_get_status (_cpu_set_status st status))
    with (_cpu_get_status (_cpu_set_status (mk_state 0 0 0 0 0 0 0 0 0 0 0 0 0) status)).
  assert (forallb (λ e, _cpu_get_status
                          (_cpu_set_status (mk_state 0 0 0 0 0 0 0 0 0 0 0 0 0) e)
                        =? Z.lor e 0x30) (seqZ 0 0x100) = true) as Hall
    by (vm_compute; reflexivity).
  rewrite forallb_forall in Hall. apply Z.eqb_eq, Hall.
  apply list_elem_of_In, elem_of_seqZ. lia.
Qed.

(** ** The stack, the other way round *)

Lemma u8_succ_pred e : u8 (u8 (e + 1) - 1) = u8 e.
Proof. unfold u8. rewrite Zminus_mod_idemp_l. f_equal. lia. Qed.

(** Pulling a byte and pushing it back leaves the machine exactly as it
    was: same stack pointer, same memory. *)
Theorem cpu_pull_push_restores m b m1 :
  0 ≤ state_sp (st m) < 0x100 →
  _cpu_pull_byte m = Some (b, m1) →
  _cpu_push_byte m1 b = Some m.
Proof.
  intros Hsp. unfold _cpu_pull_byte, _mem_get_byte_direct. simpl.
  destruct (memory (cpu m)) as [p|] eqn:Hp; simpl; [|done].
  destruct (heap m !! p) as [buf|] eqn:Hbuf; simpl; [|done].
  destruct (buf !! _) as [b'|] eqn:Hb; simpl; [|done].
  intros [= <- <-].
  erewrite cpu_push_byte_eq; [|exact Hp|exact Hbuf|by eapply lookup_lt_Some].
  simpl. rewrite u8_succ_pred, u8_small by done.
  rewrite list_insert_id by done. rewrite insert_id by done.
  destruct m as [[s strict_m trace_m mem_m memory_m] heap_m stderr_m].
  unfold set_state, set_heap, st. simpl. by destruct s.
Qed.

(** ** Interrupts, continued *)

Lemma interrupt_frame_lookup (buf : list Z) sp hi lo status :
  (0x200 ≤ length buf)%nat → 0 ≤ sp < 0x100 →
  let frame := <[Z.to_nat (0x0100 + u8 (sp - 2)) := status]>
                 (<[Z.to_nat (0x0100 + u8 (sp - 1)) := lo]>
                    (<[Z.to_nat (0x0100 + sp) := hi]> buf)) in
  frame !! Z.to_nat (0x0100 + sp) = Some hi
  ∧ frame !! Z.to_nat (0x0100 + u8 (sp - 1)) = Some lo
  ∧ frame !! Z.to_nat (0x0100 + u8 (sp - 2)) = Some status.
Proof.
  intros Hlen Hsp.
  pose proof (u8_range (sp - 1)). pose proof (u8_range (sp - 2)).
  pose proof (u8_pred_ne sp 1 Hsp). pose proof (u8_pred_ne sp 2 Hsp).
  pose proof (u8_pred_pred_ne sp Hsp).
  repeat split.
  - rewrite !list_lookup_insert_ne by lia. apply list_lookup_insert_eq. lia.
  - rewrite list_lookup_insert_ne by lia.
    apply list_lookup_insert_eq. rewrite length_insert. lia.
  - apply list_lookup_insert_eq. rewrite !length_insert. lia.
Qed.

(** [cpu_nmi] does what [cpu_irq] does, with the NMI vector: when strict
    mode is off or 3 bytes of stack are free it returns 0, having stored
    the high byte of PC where SP pointed, the low byte below it and the
    packed status byte below that, moved SP down by 3, set the
    interrupt-disable flag and loaded PC from the NMI vector; in strict
    mode with fewer than 3 bytes free it returns the stack overflow error
    and changes nothing. *)
Theorem cpu_nmi_frame_and_vector m :
  stack_page_mapped m →
  0 ≤ state_sp (st m) < 0x100 →
  is_Some (mem_get_word m EWM_VECTOR_NMI) →
  (strict (cpu m) = false ∨ 3 ≤ _cpu_stack_free m →
     ∃ m', cpu_nmi m = Some (0, m')
       ∧ _mem_get_byte_direct m' (0x0100 + state_sp (st m))
           = Some (u8 (Z.shiftr (state_pc (st m)) 8))
       ∧ _mem_get_byte_direct m' (0x0100 + u8 (state_sp (st m) - 1))
           = Some (u8 (state_pc (st m)))
       ∧ _mem_get_byte_direct m' (0x0100 + u8 (state_sp (st m) - 2))
           = Some (_cpu_get_status (st m))
       ∧ state_sp (st m') = u8 (state_sp (st m) - 3)
       ∧ state_i (st m') = 1
       ∧ mem_get_word m' EWM_VECTOR_NMI = Some (state_pc (st m')))
  ∧ (strict (cpu m) = true → _cpu_stack_free m < 3 →
     cpu_nmi m = Some (EWM_CPU_ERR_STACK_OVERFLOW, m)).
Proof.
  intros (p & buf & Hp & Hbuf & Hlen) Hsp Hvec. split.
  2: { intros. rewrite cpu_nmi_sequence. by apply interrupt_sequence_refused. }
  intros Hgo.
  pose proof (u8_range (state_sp (st m) - 1)).
  pose proof (u8_range (state_sp (st m) - 2)).
  destruct (mem_get_word_defined m (interrupt_pushed p buf m) EWM_VECTOR_NMI)
    as [w Hw]; [done|by intros; apply interrupt_pushed_shape|done|].
  destruct (interrupt_pushed_reads m p buf Hp Hlen Hsp) as (Hhi & Hlo & Hstatus).
  eexists. split.
  { rewrite cpu_nmi_sequence.
    apply (interrupt_sequence_taken _ m p buf w); (done || lia). }
  rewrite !mem_get_byte_direct_set_state, mem_get_word_set_state. simpl.
  by repeat split.
Qed.

(** [cpu_irq] and [cpu_nmi] differ in the PC they load and in nothing
    else: on the same machine they return the same code and leave the
    same memory, stderr and CPU apart from PC. *)
Theorem cpu_irq_nmi_agree m r1 m1 r2 m2 :
  cpu_irq m = Some (r1, m1) →
  cpu_nmi m = Some (r2, m2) →
  r1 = r2 ∧ set_state (with_pc 0) m1 = set_state (with_pc 0) m2.
Proof.
  rewrite cpu_irq_sequence, cpu_nmi_sequence. intros H1 H2.
  apply interrupt_sequence_Some in H1
    as [(Hs1 & Hf1 & -> & ->)|(Hgo1 & -> & p & buf & w & Hp & Hbuf & _ & _ & _ & _ & ->)];
  apply interrupt_sequence_Some in H2
    as [(Hs2 & Hf2 & -> & ->)|(Hgo2 & -> & p' & buf' & w' & Hp' & Hbuf' & _ & _ & _ & _ & ->)].
  - done.
  - destruct Hgo2 as [Hoff|Hfree]; [congruence|lia].
  - destruct Hgo1 as [Hoff|Hfree]; [congruence|lia].
  - simplify_eq. done.
Qed.

Lemma interrupt_sequence_unwinds m p buf w :
  memory (cpu m) = Some p → (0x200 ≤ length buf)%nat →
  0 ≤ state_sp (st m) < 0x100 →
  0 ≤ state_pc (st m) < 0x10000 →
  let m' := set_state (with_pc w) (set_state (with_i 1) (interrupt_pushed p buf m)) in
  ∃ m1 m2,
    _cpu_pull_byte m' = Some (_cpu_get_status (st m), m1)
    ∧ _cpu_pull_word m1 = Some (state_pc (st m), m2)
    ∧ state_sp (st m2) = state_sp (st m)
    ∧ heap m2 = heap m'.
Proof.
  intros Hp Hlen Hsp Hpc m'.
  destruct (interrupt_frame_lookup buf (state_sp (st m))
              (u8 (Z.shiftr (state_pc (st m)) 8)) (u8 (state_pc (st m)))
              (_cpu_get_status (st m)) Hlen Hsp) as (Hhi & Hlo & Hstatus).
  eexists _, _. split.
  { eapply cpu_pull_byte_eq; [exact Hp|apply lookup_insert_eq|].
    simpl. u8_simpl. exact Hstatus. }
  unfold _cpu_pull_word.
  erewrite cpu_pull_byte_eq; [|exact Hp|apply lookup_insert_eq|].
  2: { simpl. u8_simpl. exact Hlo. }
  simpl.
  erewrite cpu_pull_byte_eq; [|exact Hp|apply lookup_insert_eq|].
  2: { simpl. u8_simpl. rewrite u8_small by done. exact Hhi. }
  simpl. rewrite word_of_bytes by done. u8_simpl. rewrite u8_small by done.
  done.
Qed.

(** An interrupt can be unwound.  After [cpu_irq] or [cpu_nmi] has
    returned 0, pulling a byte gives the status byte packed on entry,
    pulling a word gives the PC of before the interrupt, SP is back where
    it was, and unpacking the status byte gives back the flags N, V, D, I,
    Z and C of before the interrupt. *)
Theorem cpu_interrupt_unwinds m interrupt vector :
  (interrupt, vector) ∈ [(cpu_irq, EWM_VECTOR_IRQ); (cpu_nmi, EWM_VECTOR_NMI)] →
  stack_page_mapped m →
  0 ≤ state_sp (st m) < 0x100 →
  0 ≤ state_pc (st m) < 0x10000 →
  is_Some (mem_get_word m vector) →
  strict (cpu m) = false ∨ 3 ≤ _cpu_stack_free m →
  ∃ m' m1 m2,
    interrupt m = Some (0, m')
    ∧ _cpu_pull_byte m' = Some (_cpu_get_status (st m), m1)
    ∧ _cpu_pull_word m1 = Some (state_pc (st m), m2)
    ∧ state_sp (st m2) = state_sp (st m)
    ∧ heap m2 = heap m'
    ∧ let st' := _cpu_set_status (st m2) (_cpu_get_status (st m)) in
      flag_set (state_n st') = flag_set (state_n (st m))
      ∧ flag_set (state_v st') = flag_set (state_v (st m))
      ∧ flag_set (state_d st') = flag_set (state_d (st m))
      ∧ flag_set (state_i st') = flag_set (state_i (st m))
      ∧ flag_set (state_z st') = flag_set (state_z (st m))
      ∧ flag_set (state_c st') = flag_set (state_c (st m)).
Proof.
  intros Hwhich (p & buf & Hp & Hbuf & Hlen) Hsp Hpc Hvec Hgo.
  assert (interrupt m = interrupt_sequence vector m) as ->.
  { apply elem_of_cons in Hwhich as [[= -> ->]|Hwhich]; [done|].
    apply list_elem_of_singleton in Hwhich as [= -> ->]. done. }
  pose proof (u8_range (state_sp (st m) - 1)).
  pose proof (u8_range (state_sp (st m) - 2)).
  destruct (mem_get_word_defined m (interrupt_pushed p buf m) vector)
    as [w Hw]; [done|by intros; apply interrupt_pushed_shape|done|].
  destruct (interrupt_sequence_unwinds m p buf w Hp Hlen Hsp Hpc)
    as (m1 & m2 & Hpull & Hword & Hsp2 & Hheap).
  exists (set_state (with_pc w) (set_state (with_i 1) (interrupt_pushed p buf m))), m1, m2.
  split; [apply (interrupt_sequence_taken _ m p buf w); (done || lia)|].
  do 4 (split; [done|]).
  unfold _cpu_set_status, _cpu_get_status, ne0, flag_set; simpl.
  repeat match goal with
    | |- context [?f (st m) =? 0] => destruct (f (st m) =? 0)
    end; by vm_compute.
Qed.

(** ** Reset and boot *)

(** [cpu_reset] touches the registers, PC, SP and the flags and writes
    one line on stderr; memory, the regions, the shortcut pointer, the
    strict and trace settings and the field [s] are left alone.  A second
    reset right after gives the same CPU again. *)
Theorem cpu_reset_frame m m' :
  cpu_reset m = Some m' →
  heap m' = heap m
  ∧ mem (cpu m') = mem (cpu m)
  ∧ memory (cpu m') = memory (cpu m)
  ∧ strict (cpu m') = strict (cpu m)
  ∧ trace (cpu m') = trace (cpu m)
  ∧ state_s (st m') = state_s (st m)
  ∧ stderr m' = stderr m
      ++ ["CPU: cpu->state.pc = " +:+ hex false 4 (state_pc (st m')) +:+ newline]
  ∧ ∃ m'', cpu_reset m' = Some m'' ∧ cpu m'' = cpu m' ∧ heap m'' = heap m'.
Proof.
  unfold cpu_reset.
  destruct (mem_get_word m EWM_VECTOR_RES) as [w|] eqn:Hw; simpl; [|done].
  intros [= <-]. simpl. do 7 (split; [done|]).
  rewrite !mem_get_word_set_state.
  change (mem_get_word (fprintf_stderr _ _) EWM_VECTOR_RES)
    with (mem_get_word m EWM_VECTOR_RES).
  rewrite Hw. simpl. eexists. split; [reflexivity|]. split; vm_compute; reflexivity.
Qed.

(** ** The run loop, continued *)

Lemma cpu_run_loop_Some fuel :
  ∀ m count err count' m2,
    cpu_run_loop fuel m count = Some (err, count', m2) →
    0 ≤ count < 0x10000000000000000 →
    err ≠ 0
    ∧ ∃ k m1, (k < fuel)%nat ∧ executes k m m1
        ∧ cpu_execute_instruction m1 = Some (err, m2)
        ∧ count' = u64 (count + Z.of_nat k).
Proof.
  induction fuel as [|fuel IH]; intros m count err count' m2 Hloop Hcount; [done|].
  simpl in Hloop.
  destruct (cpu_execute_instruction m) as [[err1 m1]|] eqn:Hstep; simpl in Hloop; [|done].
  destruct (Z.eqb_spec err1 0) as [->|Herr].
  - apply IH in Hloop as (Herr & k & m1' & Hk & Hexec & Hlast & ->).
    2: { unfold u64. apply Z.mod_pos_bound. lia. }
    split; [done|]. exists (S k), m1'. split; [lia|].
    split; [by eapply executes_S|]. split; [done|].
    rewrite u64_succ. f_equal. lia.
  - injection Hloop as <- <- <-. split; [done|].
    exists 0%nat, m. split; [lia|]. split; [constructor|]. split; [done|].
    unfold u64. rewrite Z.mod_small by lia. lia.
Qed.

(** Whatever [cpu_run] returns is an error other than 0: it comes from
    an execution that followed [k] executions without error, with [k]
    below the fuel, and the machine returned is the one that execution
    left, with the line of the count added to stderr. *)
Theorem cpu_run_Some fuel m err m' :
  cpu_run fuel m = Some (err, m') →
  err ≠ 0
  ∧ ∃ k m1 m2, (k < fuel)%nat ∧ executes k m m1
      ∧ cpu_execute_instruction m1 = Some (err, m2)
      ∧ m' = fprintf_stderr
               ("Executed " +:+ pretty (int64 (u64 (Z.of_nat k))) +:+ " instructions"
                +:+ newline) m2.
Proof.
  unfold cpu_run. intros Hrun.
  destruct (cpu_run_loop fuel m 0) as [[[err1 count] m2]|] eqn:Hloop;
    simpl in Hrun; [|done].
  injection Hrun as <- <-.
  apply cpu_run_loop_Some in Hloop as (Herr & k & m1 & Hk & Hexec & Hlast & ->); [|lia].
  split; [done|]. exists k, m1, m2. rewrite Z.add_0_l. done.
Qed.

Lemma cpu_run_loop_spins m :
  cpu_execute_instruction m = Some (0, m) →
  ∀ fuel count, cpu_run_loop fuel m count = None.
Proof.
  intros Hstep. induction fuel as [|fuel IH]; intros count; [done|].
  simpl. rewrite Hstep. simpl. apply IH.
Qed.

(** An instruction that executes without error and leaves the machine as
    it found it (a jump to itself) keeps [cpu_run] in its loop: no amount
    of fuel gives a result. *)
Theorem cpu_run_spins m :
  cpu_execute_instruction m = Some (0, m) →
  ∀ fuel, cpu_run fuel m = None.
Proof.
  intros Hstep fuel. unfold cpu_run. by rewrite cpu_run_loop_spins.
Qed.


(** ** The dispatcher, continued *)

(** The four ways [cpu_execute_instruction] can end. *)
Lemma cpu_execute_outcomes m err m' :
  cpu_execute_instruction m = Some (err, m') →
  ∃ opcode, mem_get_byte m (state_pc (st m)) = Some opcode
    ∧ let i := instructions opcode in
      (ins_handler i = None ∧ err = EWM_CPU_ERR_UNIMPLEMENTED_INSTRUCTION ∧ m' = m)
      ∨ (is_Some (ins_handler i) ∧ strict (cpu m) = true
         ∧ 0 < ins_stack i ∧ _cpu_stack_free m < ins_stack i
         ∧ err = EWM_CPU_ERR_STACK_OVERFLOW ∧ m' = m)
      ∨ (is_Some (ins_handler i) ∧ strict (cpu m) = true
         ∧ ins_stack i < 0 ∧ _cpu_stack_used m < - ins_stack i
         ∧ err = EWM_CPU_ERR_STACK_UNDERFLOW ∧ m' = m)
      ∨ (is_Some (ins_handler i) ∧ err = 0
         ∧ (strict (cpu m) = false ∨ ins_stack i = 0
            ∨ 0 < ins_stack i ≤ _cpu_stack_free m
            ∨ (ins_stack i < 0 ∧ - ins_stack i ≤ _cpu_stack_used m))).
Proof.
  unfold cpu_execute_instruction. intros Hrun.
  destruct (if trace (cpu m) =? 0 then _ else _) as [ti|]; simpl in Hrun; [|done].
  destruct (mem_get_byte m (state_pc (st m))) as [opcode|]; simpl in Hrun; [|done].
  exists opcode. split; [done|]. simpl.
  destruct (ins_handler (instructions opcode)) as [handler|].
  2: { left. by simplify_eq. }
  right.
  destruct (strict (cpu m)) eqn:Hstrict; simpl in Hrun.
  2: { right. right. split; [done|].
       destruct (match ins_bytes _ with 1 => _ | _ => _ end) as [m1|];
         simpl in Hrun; [|done].
       destruct (if trace (cpu m1) =? 0 then _ else _); simpl in Hrun; [|done].
       split; [by simplify_eq|by left]. }
  destruct (Z.eqb_spec (ins_stack (instructions opcode)) 0) as [Hzero|Hnonzero];
    simpl in Hrun.
  { right. right. split; [done|].
    destruct (match ins_bytes _ with 1 => _ | _ => _ end) as [m1|];
      simpl in Hrun; [|done].
    destruct (if trace (cpu m1) =? 0 then _ else _); simpl in Hrun; [|done].
    split; [by simplify_eq|by right; left]. }
  destruct (Z.ltb_spec 0 (ins_stack (instructions opcode))) as [Hpos|Hneg].
  - destruct (Z.ltb_spec (_cpu_stack_free m) (ins_stack (instructions opcode)))
      as [Hfree|Hfree].
    { left. by simplify_eq. }
    right. right. split; [done|].
    destruct (match ins_bytes _ with 1 => _ | _ => _ end) as [m1|];
      simpl in Hrun; [|done].
    destruct (if trace (cpu m1) =? 0 then _ else _); simpl in Hrun; [|done].
    split; [by simplify_eq|right; right; left; lia].
  - destruct (Z.ltb_spec (_cpu_stack_used m) (- ins_stack (instructions opcode)))
      as [Hused|Hused].
    { right. left. simplify_eq. repeat split; (done || lia). }
    right. right. split; [done|].
    destruct (match ins_bytes _ with 1 => _ | _ => _ end) as [m1|];
      simpl in Hrun; [|done].
    destruct (if trace (cpu m1) =? 0 then _ else _); simpl in Hrun; [|done].
    split; [by simplify_eq|right; right; right; lia].
Qed.

(** An execution that returns an error leaves the machine as it was:
    registers, flags, PC, SP, memory and stderr. *)
Theorem cpu_execute_error_unchanged m err m' :
  cpu_execute_instruction m = Some (err, m') →
  err ≠ 0 →
  m' = m.
Proof.
  intros Hrun Herr.
  apply cpu_execute_outcomes in Hrun as (opcode & _ & Hcases).
  destruct Hcases as [(_ & _ & ->)|[(_ & _ & _ & _ & _ & ->)
                     |[(_ & _ & _ & _ & _ & ->)|(_ & -> & _)]]]; done.
Qed.

(** With strict mode off no stack check is made: whatever SP is and
    whatever headroom the descriptor declares, the result is 0 or, for an
    opcode without handler, the unimplemented-instruction error. *)
Theorem cpu_execute_non_strict m err m' :
  strict (cpu m) = false →
  cpu_execute_instruction m = Some (err, m') →
  err = 0
  ∨ (err = EWM_CPU_ERR_UNIMPLEMENTED_INSTRUCTION ∧ m' = m
     ∧ ∃ opcode, mem_get_byte m (state_pc (st m)) = Some opcode
         ∧ ins_handler (instructions opcode) = None).
Proof.
  intros Hstrict Hrun.
  apply cpu_execute_outcomes in Hrun as (opcode & Hop & Hcases).
  destruct Hcases as [(Hnull & -> & ->)|[(_ & Hs & _)|[(_ & Hs & _)|(_ & -> & _)]]].
  - right. repeat split; try done. by exists opcode.
  - congruence.
  - congruence.
  - by left.
Qed.

Opaque cpu_trace_line.

(** With tracing off, an opcode with a handler is dispatched whenever the
    strict-mode check does not refuse it, that is when strict mode is off,
    or the headroom is 0, or a positive headroom is at most SP, or a
    negative one at most 0xff - SP in size.  The handler is called on the
    machine with PC advanced, with no operand, the next byte or the next
    word for 1, 2 or 3 bytes; for any other length no handler is called
    and only PC moves.  The result is 0. *)
Theorem cpu_execute_dispatches m opcode handler :
  trace (cpu m) = 0 →
  mem_get_byte m (state_pc (st m)) = Some opcode →
  ins_handler (instructions opcode) = Some handler →
  (strict (cpu m) = false ∨ ins_stack (instructions opcode) = 0
   ∨ 0 < ins_stack (instructions opcode) ≤ _cpu_stack_free m
   ∨ (ins_stack (instructions opcode) < 0
      ∧ - ins_stack (instructions opcode) ≤ _cpu_stack_used m)) →
  let i := instructions opcode in
  let pc := state_pc (st m) in
  let advanced := set_state (with_pc (u16 (pc + ins_bytes i))) m in
  (ins_bytes i = 1 → trace (cpu (handler advanced oper_none)) = 0 →
     cpu_execute_instruction m = Some (0, handler advanced oper_none))
  ∧ (ins_bytes i = 2 → ∀ oper, mem_get_byte m (u16 (pc + 1)) = Some oper →
     trace (cpu (handler advanced (oper_byte oper))) = 0 →
     cpu_execute_instruction m = Some (0, handler advanced (oper_byte oper)))
  ∧ (ins_bytes i = 3 → ∀ oper, mem_get_word m (u16 (pc + 1)) = Some oper →
     trace (cpu (handler advanced (oper_word oper))) = 0 →
     cpu_execute_instruction m = Some (0, handler advanced (oper_word oper)))
  ∧ (ins_bytes i ≠ 1 → ins_bytes i ≠ 2 → ins_bytes i ≠ 3 →
     cpu_execute_instruction m = Some (0, advanced)).
Proof.
  intros Htrace Hop Hhandler Hguard i pc advanced.
  assert ((if strict (cpu m) && negb (ins_stack i =? 0)
           then if 0 <? ins_stack i
                then if _cpu_stack_free m <? ins_stack i
                     then Some EWM_CPU_ERR_STACK_OVERFLOW else None
                else if _cpu_stack_used m <? - ins_stack i
                     then Some EWM_CPU_ERR_STACK_UNDERFLOW else None
           else None) = None) as Hpass.
  { fold i in Hguard.
    destruct (strict (cpu m)); simpl; [|done].
    destruct (Z.eqb_spec (ins_stack i) 0); simpl; [done|].
    destruct (Z.ltb_spec 0 (ins_stack i)).
    - destruct (Z.ltb_spec (_cpu_stack_free m) (ins_stack i)); [|done].
      destruct Hguard as [?|[?|[?|?]]]; (done || lia).
    - destruct (Z.ltb_spec (_cpu_stack_used m) (- ins_stack i)); [|done].
      destruct Hguard as [?|[?|[?|?]]]; (done || lia). }
  assert (∀ body : option machine,
    (body ≫= λ m1, (if trace (cpu m1) =? 0 then Some m1
                     else cpu_trace_line i pc None m1)
                    ≫= λ m2, Some (0, m2))
    = (body ≫= λ m1, if trace (cpu m1) =? 0 then Some (0, m1)
                     else cpu_trace_line i pc None m1 ≫= λ m2, Some (0, m2))) as Hbind.
  { intros [m1|]; simpl; [|done]. by destruct (trace (cpu m1) =? 0). }
  assert (cpu_execute_instruction m =
    (match ins_bytes i with
     | 1 => Some (handler advanced oper_none)
     | 2 => oper ← mem_get_byte advanced (u16 (pc + 1));
            Some (handler advanced (oper_byte oper))
     | 3 => oper ← mem_get_word advanced (u16 (pc + 1));
            Some (handler advanced (oper_word oper))
     | _ => Some advanced
     end) ≫= λ m1, if trace (cpu m1) =? 0 then Some (0, m1)
                   else cpu_trace_line i pc None m1 ≫= λ m2, Some (0, m2)) as ->.
  { unfold cpu_execute_instruction. rewrite Htrace. simpl. rewrite Hop. simpl.
    rewrite Hhandler. fold i. rewrite Hpass, Z.eqb_refl. fold pc advanced.
    apply Hbind. }
  repeat split.
  - intros -> Hoff. simpl. by rewrite Hoff.
  - intros -> oper Hoper Hoff.
    change (mem_get_byte advanced) with (mem_get_byte m). rewrite Hoper. simpl.
    by rewrite Hoff.
  - intros -> oper Hoper Hoff.
    change (mem_get_word advanced) with (mem_get_word m). rewrite Hoper. simpl.
    by rewrite Hoff.
  - intros H1 H2 H3.
    repeat case_match; simpl; rewrite ?Htrace; (done || lia).
Qed.

Transparent cpu_trace_line.

(** ** The tracer *)

Lemma string_length_app (s1 s2 : string) :
  String.length (s1 +:+ s2) = (String.length s1 + String.length s2)%nat.
Proof. induction s1 as [|c s1 IH]; simpl; [done|]. by rewrite IH. Qed.

Lemma hex_length upper digits e : String.length (hex upper digits e) = digits.
Proof.
  revert e. induction digits as [|k IH]; intros e; simpl; [done|].
  rewrite string_length_app, IH. simpl. lia.
Qed.

Lemma sprintf_Some size text :
  (String.length text < size)%nat → sprintf size text = Some text.
Proof. intros. unfold sprintf. by rewrite decide_True. Qed.

Lemma cpu_format_stack_loop_length rounds :
  ∀ m p buf sp buffer,
    memory (cpu m) = Some p → heap m !! p = Some buf → (0x200 ≤ length buf)%nat →
    0 ≤ sp → sp + Z.of_nat rounds ≤ 0xff →
    ∃ text, cpu_format_stack_loop rounds m sp buffer = Some text
      ∧ String.length text = (String.length buffer + 3 * rounds)%nat.
Proof.
  induction rounds as [|rounds IH]; intros m p buf sp buffer Hp Hbuf Hlen Hsp Hend.
  { exists buffer. split; [done|]. simpl. lia. }
  simpl. unfold _mem_get_byte_direct. rewrite Hp. simpl. rewrite Hbuf. simpl.
  destruct (lookup_lt_is_Some_2 buf (Z.to_nat (0x0100 + sp))) as [b ->]; [lia|].
  simpl. rewrite u16_small by lia.
  destruct (IH m p buf (sp + 1) (buffer +:+ " " +:+ X2 b) Hp Hbuf Hlen)
    as (text & -> & Htext); [lia|lia|].
  exists text. split; [done|]. rewrite Htext, !string_length_app.
  unfold X2. rewrite hex_length. simpl. lia.
Qed.

(** The trace of the stack takes three characters for each byte from SP up
    to 0x01fe, in a buffer of 256: on a machine whose stack page is mapped
    it is defined exactly when at most 85 bytes are listed, that is when
    SP is at least 0xaa; below that the buffer is overrun. *)
Theorem cpu_format_stack_defined m :
  stack_page_mapped m →
  0 ≤ state_sp (st m) < 0x100 →
  (is_Some (cpu_format_stack m) ↔ 0xaa ≤ state_sp (st m))
  ∧ ∀ text, cpu_format_stack m = Some text →
      Z.of_nat (String.length text) = 3 * (0xff - state_sp (st m)).
Proof.
  intros (p & buf & Hp & Hbuf & Hlen) Hsp. unfold cpu_format_stack.
  destruct (cpu_format_stack_loop_length (Z.to_nat (0xff - state_sp (st m)))
              m p buf (state_sp (st m)) "" Hp Hbuf Hlen) as (text & -> & Htext);
    [lia|lia|].
  simpl in *. unfold sprintf. split.
  - case_decide; split; intros Hdef; (done || lia || by destruct Hdef).
  - intros text'. case_decide; [|done]. intros [= <-]. lia.
Qed.

(** The text of the instruction at PC is defined whenever the three bytes
    from PC on can be read and the mnemonic is shorter than 247
    characters; for a descriptor of one byte it is the mnemonic alone. *)
Theorem cpu_format_instruction_defined m opcode b1 b2 :
  mem_get_byte m (state_pc (st m)) = Some opcode →
  mem_get_byte m (u16 (state_pc (st m) + 1)) = Some b1 →
  mem_get_byte m (u16 (state_pc (st m) + 2)) = Some b2 →
  (String.length (ins_name (instructions opcode)) < 247)%nat →
  is_Some (cpu_format_instruction m)
  ∧ (ins_bytes (instructions opcode) = 1 →
     cpu_format_instruction m = Some (ins_name (instructions opcode))).
Proof.
  intros Hop Hb1 Hb2 Hname. unfold cpu_format_instruction, mem_get_word.
  rewrite Hop. simpl. rewrite u16_succ_succ, Hb1, Hb2. simpl. split.
  - repeat case_match; simpl; rewrite sprintf_Some; try done.
    all: unfold X2, X4; rewrite ?string_length_app, ?hex_length; simpl; lia.
  - intros ->. simpl. by rewrite sprintf_Some by lia.
Qed.

(** ** Registering regions *)

Lemma mem_covers_true r addr :
  mem_start r ≤ addr < mem_start r + mem_length r → mem_covers r addr = true.
Proof.
  intros [Hlo Hhi]. unfold mem_covers.
  by rewrite (proj2 (Z.leb_le _ _) Hlo), (proj2 (Z.ltb_lt _ _) Hhi).
Qed.

Lemma cpu_add_mem_resolve m r addr :
  (mem_covers r addr = true →
     mem_get_byte (cpu_add_mem m r) addr
       = f ← mem_read_handler r; call_read_handler f (heap m) r addr)
  ∧ (mem_covers r addr = false →
     mem_get_byte (cpu_add_mem m r) addr = mem_get_byte m addr).
Proof.
  unfold mem_get_byte, cpu_add_mem. simpl. split; intros ->; done.
Qed.

Lemma mem_covers_false r addr :
  ¬ (mem_start r ≤ addr < mem_start r + mem_length r) → mem_covers r addr = false.
Proof.
  intros Hout. unfold mem_covers.
  destruct (Z.leb_spec (mem_start r) addr), (Z.ltb_spec addr (mem_start r + mem_length r));
    (done || lia).
Qed.

(** The region registered last wins.  With [r2] registered after [r1]: a
    bus read at an address [r2] covers goes to the handler of [r2], also
    where [r1] covers it too; an address that only [r1] covers is still
    served by [r1]; an address that neither covers is answered as before
    the two registrations. *)
Theorem cpu_add_mem_priority m r1 r2 addr :
  let m' := cpu_add_mem (cpu_add_mem m r1) r2 in
  (mem_covers r2 addr = true →
     mem_get_byte m' addr
       = f ← mem_read_handler r2; call_read_handler f (heap m) r2 addr)
  ∧ (mem_covers r2 addr = false → mem_covers r1 addr = true →
     mem_get_byte m' addr
       = f ← mem_read_handler r1; call_read_handler f (heap m) r1 addr)
  ∧ (mem_covers r2 addr = false → mem_covers r1 addr = false →
     mem_get_byte m' addr = mem_get_byte m addr).
Proof.
  intros m'. subst m'. repeat split.
  - intros H2. by rewrite (proj1 (cpu_add_mem_resolve _ r2 addr) H2).
  - intros H2 H1. rewrite (proj2 (cpu_add_mem_resolve _ r2 addr) H2).
    by rewrite (proj1 (cpu_add_mem_resolve _ r1 addr) H1).
  - intros H2 H1. rewrite (proj2 (cpu_add_mem_resolve _ r2 addr) H2).
    by rewrite (proj2 (cpu_add_mem_resolve _ r1 addr) H1).
Qed.

(** A RAM region at address 0 of at least 0x200 bytes becomes the
    shortcut, and right after its registration the direct accessor and the
    bus read agree on every address of the region. *)
Theorem cpu_add_mem_ram_shortcut m r addr :
  mem_type r = MEM_TYPE_RAM →
  mem_start r = 0x0000 →
  0x200 ≤ mem_length r →
  mem_read_handler r = Some ram_read_handler →
  0 ≤ addr < mem_length r →
  memory (cpu (cpu_add_mem m r)) = Some (mem_obj r)
  ∧ mem_get_byte (cpu_add_mem m r) addr = _mem_get_byte_direct (cpu_add_mem m r) addr.
Proof.
  intros Htype Hstart Hlen Hread Haddr.
  assert (memory (cpu (cpu_add_mem m r)) = Some (mem_obj r)) as Hshortcut.
  { unfold cpu_add_mem. simpl. rewrite Htype, Hstart.
    by rewrite (proj2 (Z.leb_le _ _) Hlen). }
  split; [done|].
  rewrite (proj1 (cpu_add_mem_resolve m r addr)) by (apply mem_covers_true; lia).
  unfold _mem_get_byte_direct. rewrite Hshortcut, Hread. simpl.
  unfold _ram_read. rewrite Hstart, Z.sub_0_r.
  destruct (heap m !! mem_obj r); simpl; [|done]. by rewrite decide_True by lia.
Qed.

(** ROM and I/O regions lie over what was registered before, on the bus
    only.  After [cpu_add_rom_data] a read inside the range gives the byte
    of the caller's buffer at the offset from [start], after [cpu_add_iom]
    it gives what the read handler answers; neither moves the shortcut, so
    the direct accessors, and with them the stack, still see the RAM
    underneath. *)
Theorem cpu_add_rom_iom_overlay m start length data buf obj f write_handler addr :
  start ≤ addr < start + length →
  heap m !! data = Some buf →
  mem_get_byte (cpu_add_rom_data m start length data) addr
    = buf !! Z.to_nat (addr - start)
  ∧ mem_get_byte (cpu_add_iom m start length obj (Some f) write_handler) addr
    = Some (u8 (f addr))
  ∧ (∀ a, _mem_get_byte_direct (cpu_add_rom_data m start length data) a
          = _mem_get_byte_direct m a)
  ∧ (∀ a, _mem_get_byte_direct (cpu_add_iom m start length obj (Some f) write_handler) a
          = _mem_get_byte_direct m a).
Proof.
  intros Haddr Hbuf.
  unfold cpu_add_rom_data, cpu_add_iom, mem_get_byte, cpu_add_mem. simpl.
  rewrite !mem_covers_true by done.
  simpl. unfold _rom_read. simpl. rewrite Hbuf. simpl.
  rewrite decide_True by lia. done.
Qed.

(** A byte pushed is seen on the bus: when the address SP points to
    resolves to a RAM region at address 0 whose buffer is the shortcut
    buffer, a bus read there after the push gives the byte pushed. *)
Theorem cpu_push_byte_on_bus m r b m1 :
  0 ≤ state_sp (st m) →
  mem_resolve (mem (cpu m)) (0x0100 + state_sp (st m)) = Some r →
  mem_read_handler r = Some ram_read_handler →
  mem_start r = 0x0000 →
  memory (cpu m) = Some (mem_obj r) →
  _cpu_push_byte m b = Some m1 →
  mem_get_byte m1 (0x0100 + state_sp (st m)) = Some b.
Proof.
  intros Hsp Hr Hread Hstart Hshortcut Hpush.
  apply cpu_push_byte_Some in Hpush as (p & buf & Hp & Hbuf & Hlt & ->).
  assert (p = mem_obj r) as -> by congruence.
  unfold mem_get_byte. simpl. rewrite Hr. simpl. rewrite Hread. simpl.
  unfold _ram_read. rewrite lookup_insert_eq. simpl.
  rewrite Hstart, Z.sub_0_r, decide_True by lia.
  by apply list_lookup_insert_eq.
Qed.

(** The RAM handlers: a write is defined exactly where a read is; after
    it a read at the same address gives the byte written, reads elsewhere
    in the region give what they gave before, and no other buffer has
    changed. *)
Theorem ram_write_read h r addr b :
  (is_Some (_ram_write h r addr b) ↔ is_Some (_ram_read h r addr))
  ∧ ∀ h', _ram_write h r addr b = Some h' →
      _ram_read h' r addr = Some b
      ∧ (∀ addr', 0 ≤ addr' - mem_start r → addr' ≠ addr →
           _ram_read h' r addr' = _ram_read h r addr')
      ∧ (∀ q, q ≠ mem_obj r → h' !! q = h !! q).
Proof.
  unfold _ram_write, _ram_read.
  destruct (h !! mem_obj r) as [buf|] eqn:Hbuf; simpl.
  2: { split; [by split; intros [? ?]|done]. }
  split.
  - destruct (decide (0 ≤ addr - mem_start r)) as [Hpos|Hneg].
    + rewrite lookup_lt_is_Some. case_decide as Hin; split; intros Hdef.
      * lia.
      * by eexists.
      * by destruct Hdef.
      * exfalso. apply Hin. lia.
    + rewrite decide_False by lia. split; intros [? ?]; done.
  - intros h'. case_decide as Hin; [|done]. intros [= <-].
    rewrite lookup_insert_eq. simpl. rewrite decide_True by lia.
    split; [apply list_lookup_insert_eq; lia|]. split.
    + intros addr' Hpos Hne. rewrite !decide_True by done.
      apply list_lookup_insert_ne. lia.
    + intros q Hq. by apply lookup_insert_ne.
Qed.

(** [cpu_add_ram]: the new region answers bus reads at every address of
    its range with a byte; the buffers that were there are kept and the
    registers are untouched.  At address 0 with at least 0x200 bytes it
    maps the stack page, so that pushes are defined; anywhere else, or
    shorter, it leaves the shortcut as it was. *)
Theorem cpu_add_ram_reads m start length m' :
  cpu_add_ram m start length m' →
  0 ≤ start →
  (∀ addr, start ≤ addr < start + length →
     ∃ b, mem_get_byte m' addr = Some b ∧ 0 ≤ b < 0x100)
  ∧ (∀ q buf, heap m !! q = Some buf → heap m' !! q = Some buf)
  ∧ st m' = st m
  ∧ (start = 0x0000 → 0x200 ≤ length → stack_page_mapped m')
  ∧ (¬ (start = 0x0000 ∧ 0x200 ≤ length) → memory (cpu m') = memory (cpu m)).
Proof.
  intros [p contents Hfresh Hlen Htyped] Hstart. split; [|split; [|split; [done|split]]].
  - intros addr Haddr.
    unfold mem_get_byte, cpu_add_mem. simpl.
    rewrite mem_covers_true by done.
    simpl. unfold _ram_read. simpl. rewrite lookup_insert_eq. simpl.
    rewrite decide_True by lia.
    destruct (lookup_lt_is_Some_2 contents (Z.to_nat (addr - start))) as [b Hb]; [lia|].
    exists b. split; [done|].
    rewrite Forall_forall in Htyped. apply Htyped. by eapply list_elem_of_lookup_2.
  - intros q buf Hq. simpl. rewrite lookup_insert_ne; [done|]. congruence.
  - intros -> Hbig. exists p, contents. unfold cpu_add_mem. simpl.
    rewrite (proj2 (Z.leb_le _ _) Hbig). simpl.
    split; [done|]. split; [apply lookup_insert_eq|]. lia.
  - intros Hnot. unfold cpu_add_mem. simpl.
    destruct (Z.eqb_spec start 0) as [->|]; simpl; [|done].
    destruct (Z.leb_spec 0x200 length); [|done]. by destruct Hnot.
Qed.

(** ** Loading a ROM image *)

(** When [cpu_add_rom_file] fails, no region is registered and nothing is
    reported: the CPU structure is as before, whether [open] or [fstat]
    fails, the file is larger than 64 KiB minus [start], or [read] returns
    anything but the size.  Up to the size check the machine is not
    touched at all; after a short read only the abandoned buffer is
    left. *)
Theorem cpu_add_rom_file_rejects m start file p :
  match file with
  | open_fails | fstat_fails => True
  | rom_file st_size data nread => 64 * 1024 - start < st_size ∨ nread ≠ st_size
  end →
  cpu (cpu_add_rom_file m start file p) = cpu m
  ∧ stderr (cpu_add_rom_file m start file p) = stderr m
  ∧ (∀ q, q ≠ p → heap (cpu_add_rom_file m start file p) !! q = heap m !! q)
  ∧ match file with
    | open_fails | fstat_fails => cpu_add_rom_file m start file p = m
    | rom_file st_size data nread =>
        64 * 1024 - start < st_size → cpu_add_rom_file m start file p = m
    end.
Proof.
  destruct file as [| |st_size data nread]; simpl; [done|done|].
  intros Hfail.
  destruct (Z.ltb_spec (64 * 1024 - start) st_size) as [Hbig|Hfits]; [done|].
  destruct Hfail as [?|Hshort]; [lia|].
  rewrite (proj2 (Z.eqb_neq _ _) Hshort). simpl.
  repeat split; try done; try lia. intros q Hq. by apply lookup_insert_ne.
Qed.

(** A file that fits and is read in full becomes a ROM region at [start]:
    a bus read at [start + k] gives byte [k] of the file, the shortcut is
    not moved, and an address outside the file that was readable before
    reads as before. *)
Theorem cpu_add_rom_file_loads m start st_size data p :
  heap m !! p = None →
  0 ≤ start →
  0 ≤ st_size ≤ 64 * 1024 - start →
  st_size < 0x10000 →
  let m' := cpu_add_rom_file m start (rom_file st_size data st_size) p in
  (∀ addr, start ≤ addr < start + st_size →
     mem_get_byte m' addr = data !! Z.to_nat (addr - start))
  ∧ memory (cpu m') = memory (cpu m)
  ∧ st m' = st m
  ∧ (∀ addr, ¬ (start ≤ addr < start + st_size) →
       is_Some (mem_get_byte m addr) → mem_get_byte m' addr = mem_get_byte m addr).
Proof.
  intros Hfresh Hstart Hsize Hsmall m'. subst m'. simpl.
  rewrite (proj2 (Z.ltb_ge _ _) (proj2 Hsize)), Z.eqb_refl. simpl.
  rewrite u16_small by lia.
  split; [|split; [done|split; [done|]]].
  - intros addr Haddr.
    unfold cpu_add_rom_data, mem_get_byte, cpu_add_mem. simpl.
    rewrite mem_covers_true by done.
    simpl. unfold _rom_read. simpl. rewrite lookup_insert_eq. simpl.
    by rewrite decide_True by lia.
  - intros addr Hout Hdef.
    unfold cpu_add_rom_data.
    rewrite (proj2 (cpu_add_mem_resolve _ _ addr)) by (by apply mem_covers_false).
    unfold mem_get_byte in *. simpl.
    destruct (mem_resolve (mem (cpu m)) addr) as [r|]; simpl in *; [|done].
    destruct (mem_read_handler r) as [f|]; simpl in *; [|done].
    destruct f; simpl in *; [| |done].
    all: unfold _ram_read, _rom_read in *.
    all: destruct (decide (mem_obj r = p)) as [Heq|Hne];
      [rewrite Heq, Hfresh in Hdef; by destruct Hdef|by rewrite lookup_insert_ne].
Qed.

(** The length of a region is a 16-bit number.  A file of exactly 64 KiB
    for address 0 passes the size check and is read, but its region is
    registered with length 0: it covers no address, and every bus read
    resolves to the region it resolved to before. *)
Theorem cpu_add_rom_file_64k m data p :
  let m' := cpu_add_rom_file m 0 (rom_file 0x10000 data 0x10000) p in
  mem (cpu m') = mk_mem MEM_TYPE_ROM p 0 0 (Some rom_read_handler) None :: mem (cpu m)
  ∧ ∀ addr, mem_resolve (mem (cpu m')) addr = mem_resolve (mem (cpu m)) addr.
Proof.
  simpl. change (u16 65536) with 0. split; [done|]. intros addr.
  by rewrite mem_covers_false by (simpl; lia).
Qed.

End Cpu.

(** * The theorems at work on the sample machine

    The error codes are taken to be 1, 2 and 3. *)

(** C8 on the sample machine with SP = 0x00, the byte 0xab and the word
    0xbeef. *)
Lemma cpu_push_pull_round_trip_witness :
  let m := sample_at 0xff00 0x00 in
  (stack_page_mapped m ∧ 0 ≤ state_sp (st m) < 0x100
   ∧ 0 ≤ 0xab < 0x100 ∧ 0 ≤ 0xbeef < 0x10000)
  ∧ (∃ m1 m2, _cpu_push_byte m 0xab = Some m1 ∧ state_sp (st m1) = 0xff
       ∧ _cpu_pull_byte m1 = Some (0xab, m2) ∧ state_sp (st m2) = 0x00)
  ∧ (∃ m1 m2, _cpu_push_word m 0xbeef = Some m1 ∧ state_sp (st m1) = 0xfe
       ∧ _cpu_pull_word m1 = Some (0xbeef, m2) ∧ state_sp (st m2) = 0x00).
Proof.
  intros m.
  assert (stack_page_mapped m) as Hmapped.
  { exists 0%nat, sample_ram. repeat split. vm_compute. lia. }
  assert (0 ≤ state_sp (st m) < 0x100) as Hsp by (change (0 ≤ 0x00 < 0x100); lia).
  assert (0 ≤ 0xab < 0x100) as Hv by lia.
  assert (0 ≤ 0xbeef < 0x10000) as Hw by lia.
  split; [done|].
  destruct (cpu_push_pull_round_trip m 0xab 0xbeef Hmapped Hsp Hv Hw)
    as [(m1 & m2 & Hpush & Hsp1 & _ & Hpull & Hsp2 & _)
        (w1 & w2 & Hpushw & Hspw1 & Hpullw & Hspw2 & _)].
  split.
  - exists m1, m2. repeat split; assumption.
  - exists w1, w2. repeat split; assumption.
Defined.

(** C6 on the sample machine with PC = 0x0400, SP = 0xff and the carry
    flag set, strict mode off: the frame is 0x31, 0x00, 0x04 at 0x01fd,
    0x01fe and 0x01ff, and PC is the word 0x9000 of the IRQ vector. *)
Lemma cpu_irq_frame_and_vector_witness :
  let m := set_state (with_c 1) (sample_at 0x0400 0xff) in
  (stack_page_mapped m ∧ 0 ≤ state_sp (st m) < 0x100
   ∧ is_Some (mem_get_word m EWM_VECTOR_IRQ)
   ∧ (strict (cpu m) = false ∨ 3 ≤ _cpu_stack_free m))
  ∧ ∃ m', cpu_irq 2 m = Some (0, m')
      ∧ _mem_get_byte_direct m' 0x01fd = Some 0x31
      ∧ _mem_get_byte_direct m' 0x01fe = Some 0x00
      ∧ _mem_get_byte_direct m' 0x01ff = Some 0x04
      ∧ state_sp (st m') = 0xfc
      ∧ state_i (st m') = 1
      ∧ mem_get_word m' EWM_VECTOR_IRQ = Some (state_pc (st m')).
Proof.
  intros m.
  assert (stack_page_mapped m) as Hmapped.
  { exists 0%nat, sample_ram. repeat split. vm_compute. lia. }
  assert (0 ≤ state_sp (st m) < 0x100) as Hsp by (change (0 ≤ 0xff < 0x100); lia).
  assert (is_Some (mem_get_word m EWM_VECTOR_IRQ)) as Hvec
    by (exists 0x9000; vm_compute; reflexivity).
  assert (strict (cpu m) = false ∨ 3 ≤ _cpu_stack_free m) as Hgo
    by (left; vm_compute; reflexivity).
  split; [exact (conj Hmapped (conj Hsp (conj Hvec Hgo)))|].
  destruct (proj1 (cpu_irq_frame_and_vector 2 m Hmapped Hsp Hvec) Hgo)
    as (m' & Hrun & Hhi & Hlo & Hstatus & Hsp' & Hi & Hpc & _).
  exists m'. repeat split; [exact Hrun|exact Hstatus|exact Hlo|exact Hhi
                             |exact Hsp'|exact Hi|exact Hpc].
Defined.

(** C10 on the same machine, for [cpu_irq] and for [cpu_nmi]. *)
Lemma cpu_interrupt_frame_effect_witness :
  let m := set_state (with_c 1) (sample_at 0x0400 0xff) in
  ∃ m' m'',
    (2 ≠ 0 ∧ 0 ≤ state_sp (st m) < 0x100
     ∧ cpu_irq 2 m = Some (0, m') ∧ cpu_nmi 2 m = Some (0, m''))
    ∧ (state_a (st m') = 0 ∧ state_c (st m') = 1 ∧ state_sp (st m') = 0xfc
       ∧ mem (cpu m') = mem (cpu m)
       ∧ ∀ q, q ≠ 0%nat → heap m' !! q = heap m !! q)
    ∧ (state_a (st m'') = 0 ∧ state_c (st m'') = 1 ∧ state_sp (st m'') = 0xfc
       ∧ mem (cpu m'') = mem (cpu m)
       ∧ ∀ q, q ≠ 0%nat → heap m'' !! q = heap m !! q).
Proof.
  intros m.
  assert (2 ≠ 0) as Herr by lia.
  assert (0 ≤ state_sp (st m) < 0x100) as Hsp by (change (0 ≤ 0xff < 0x100); lia).
  assert (∃ m', cpu_irq 2 m = Some (0, m')) as [m' Hirq]
    by (eexists; vm_compute; reflexivity).
  assert (∃ m'', cpu_nmi 2 m = Some (0, m'')) as [m'' Hnmi]
    by (eexists; vm_compute; reflexivity).
  exists m', m''. split; [exact (conj Herr (conj Hsp (conj Hirq Hnmi)))|].
  destruct (cpu_interrupt_frame_effect 2 m m' Herr Hsp (or_introl Hirq))
    as (Ha & _ & _ & _ & _ & _ & _ & _ & Hc & Hsp' & Hmem & _
        & p & buf & buf' & Hp & _ & _ & _ & Hheap & _).
  destruct (cpu_interrupt_frame_effect 2 m m'' Herr Hsp (or_intror Hnmi))
    as (Ha2 & _ & _ & _ & _ & _ & _ & _ & Hc2 & Hsp2 & Hmem2 & _
        & p2 & buf2 & buf2' & Hp2 & _ & _ & _ & Hheap2 & _).
  assert (p = 0%nat) as -> by (vm_compute in Hp; congruence).
  assert (p2 = 0%nat) as -> by (vm_compute in Hp2; congruence).
  split; (split; [exact Ha || exact Ha2|]); (split; [exact Hc || exact Hc2|]);
    (split; [exact Hsp' || exact Hsp2|]); (split; [exact Hmem || exact Hmem2|]);
    (exact Hheap || exact Hheap2).
Defined.

(** C7 on the sample machine, whose reset vector holds 0x34, 0x12. *)
Lemma cpu_reset_state_witness :
  (mem_get_byte sample_machine EWM_VECTOR_RES = Some 0x34
   ∧ mem_get_byte sample_machine (EWM_VECTOR_RES + 1) = Some 0x12)
  ∧ ∃ m', cpu_reset sample_machine = Some m'
      ∧ state_pc (st m') = 0x1234
      ∧ state_sp (st m') = 0xff
      ∧ flag_set (state_i (st m')) = true
      ∧ state_n (st m') = 0 ∧ state_v (st m') = 0 ∧ state_b (st m') = 0
      ∧ state_d (st m') = 0 ∧ state_z (st m') = 0 ∧ state_c (st m') = 0
      ∧ state_a (st m') = 0 ∧ state_x (st m') = 0 ∧ state_y (st m') = 0.
Proof.
  assert (mem_get_byte sample_machine EWM_VECTOR_RES = Some 0x34) as Hlo
    by (vm_compute; reflexivity).
  assert (mem_get_byte sample_machine (EWM_VECTOR_RES + 1) = Some 0x12) as Hhi
    by (vm_compute; reflexivity).
  split; [exact (conj Hlo Hhi)|].
  destruct (cpu_reset_state sample_machine 0x34 0x12 Hlo Hhi)
    as (m' & Hrun & _ & Hpc & Hsp & _ & Hi & Hflags).
  exists m'. split; [exact Hrun|]. split; [exact (Hpc eq_refl eq_refl)|].
  split; [exact Hsp|]. split; [exact Hi|]. exact Hflags.
Defined.

(** C9 on the sample machine at 0xff08, where the byte 0x02 has no
    handler, with tracing on. *)
Lemma cpu_execute_unimplemented_witness :
  let m := cpu_trace (sample_at 0xff08 0xff) 1 in
  (mem_get_byte m (state_pc (st m)) = Some 0x02
   ∧ ins_handler (sample_instructions 0x02) = None
   ∧ (trace (cpu m) ≠ 0 → is_Some (cpu_format_instruction sample_instructions m)))
  ∧ cpu_execute_instruction sample_instructions 1 2 3 m = Some (1, m).
Proof.
  intros m.
  assert (mem_get_byte m (state_pc (st m)) = Some 0x02) as Hop
    by (vm_compute; reflexivity).
  assert (ins_handler (sample_instructions 0x02) = None) as Hnull by reflexivity.
  assert (trace (cpu m) ≠ 0 → is_Some (cpu_format_instruction sample_instructions m))
    as Htrace by (intros _; exists "???"; vm_compute; reflexivity).
  split; [exact (conj Hop (conj Hnull Htrace))|].
  exact (cpu_execute_unimplemented sample_instructions 1 2 3 m 0x02 Hop Hnull Htrace).
Defined.

(** C5 on the sample machine in strict mode, with tracing on: BRK, which needs 3 bytes, at
    0xff06 with SP = 0x02, and RTI, which gives 3 bytes back, at 0xff07
    with SP = 0xfe. *)
Lemma cpu_execute_strict_stack_guard_witness :
  let m := cpu_trace (cpu_strict (sample_at 0xff06 0x02) true) 1 in
  let m' := cpu_trace (cpu_strict (sample_at 0xff07 0xfe) true) 1 in
  (strict (cpu m) = true ∧ 0 ≤ state_sp (st m) < 0x100
   ∧ mem_get_byte m (state_pc (st m)) = Some 0x00
   ∧ ins_handler (sample_instructions 0x00) = Some op_nop
   ∧ (trace (cpu m) ≠ 0 → is_Some (cpu_format_instruction sample_instructions m))
   ∧ state_sp (st m) = 0x02 ∧ ins_stack (sample_instructions 0x00) = 3)
  ∧ cpu_execute_instruction sample_instructions 1 2 3 m = Some (2, m)
  ∧ cpu_execute_instruction sample_instructions 1 2 3 m' = Some (3, m').
Proof.
  intros m m'.
  assert (0 ≤ state_sp (st m) < 0x100) as Hsp by (change (0 ≤ 0x02 < 0x100); lia).
  assert (0 ≤ state_sp (st m') < 0x100) as Hsp' by (change (0 ≤ 0xfe < 0x100); lia).
  assert (mem_get_byte m (state_pc (st m)) = Some 0x00) as Hop
    by (vm_compute; reflexivity).
  assert (mem_get_byte m' (state_pc (st m')) = Some 0x40) as Hop'
    by (vm_compute; reflexivity).
  assert (trace (cpu m) ≠ 0 → is_Some (cpu_format_instruction sample_instructions m))
    as Htrace by (intros _; exists "BRK"; vm_compute; reflexivity).
  assert (trace (cpu m') ≠ 0 → is_Some (cpu_format_instruction sample_instructions m'))
    as Htrace' by (intros _; exists "RTI"; vm_compute; reflexivity).
  split; [exact (conj eq_refl (conj Hsp (conj Hop (conj eq_refl
                  (conj Htrace (conj eq_refl eq_refl))))))|].
  split.
  - apply (cpu_execute_strict_stack_guard sample_instructions 1 2 3 m 0x00 op_nop
             eq_refl Hsp Hop eq_refl Htrace); reflexivity.
  - apply (cpu_execute_strict_stack_guard sample_instructions 1 2 3 m' 0x40 op_nop
             eq_refl Hsp' Hop' eq_refl Htrace').
    + change (-3 < 0). lia.
    + change (1 < 3). lia.
Defined.

(** C4 on the sample machine at 0xff03, where JMP $FF08 stands: the
    handler is called with PC already at 0xff06 and with the word read at
    0xff04 and 0xff05; the PC it sets, 0xff08, is the PC afterwards. *)
Lemma cpu_execute_advances_then_dispatches_witness :
  let m := sample_at 0xff03 0xff in
  ∃ m',
    (1 ≠ 0 ∧ 2 ≠ 0 ∧ 3 ≠ 0
     ∧ mem_get_byte m (state_pc (st m)) = Some 0x4c
     ∧ 1 ≤ ins_bytes (sample_instructions 0x4c) ≤ 3
     ∧ cpu_execute_instruction sample_instructions 1 2 3 m = Some (0, m'))
    ∧ cpu m' = cpu (op_jmp (set_state (with_pc 0xff06) m) (oper_word 0xff08))
    ∧ state_pc (st m') = 0xff08.
Proof.
  intros m.
  assert (1 ≠ 0) as He1 by lia.
  assert (2 ≠ 0) as He2 by lia.
  assert (3 ≠ 0) as He3 by lia.
  assert (mem_get_byte m (state_pc (st m)) = Some 0x4c) as Hop
    by (vm_compute; reflexivity).
  assert (1 ≤ ins_bytes (sample_instructions 0x4c) ≤ 3) as Hbytes
    by (change (1 ≤ 3 ≤ 3); lia).
  assert (∃ m', cpu_execute_instruction sample_instructions 1 2 3 m = Some (0, m'))
    as [m' Hrun] by (eexists; vm_compute; reflexivity).
  exists m'.
  split; [exact (conj He1 (conj He2 (conj He3 (conj Hop (conj Hbytes Hrun)))))|].
  destruct (cpu_execute_advances_then_dispatches sample_instructions 1 2 3 m m' 0x4c
              He1 He2 He3 Hop Hbytes Hrun)
    as (handler & oper & m1 & Hhandler & -> & Hoper & Hcpu & _ & Hpc & _).
  injection Hhandler as <-.
  destruct oper as [|b1|w].
  - discriminate Hoper.
  - destruct Hoper as [Hb _]. discriminate Hb.
  - destruct Hoper as (_ & lo & hi & Hlo & Hhi & ->).
    vm_compute in Hlo. vm_compute in Hhi.
    injection Hlo as <-. injection Hhi as <-.
    split; [exact Hcpu|exact Hpc].
Defined.

(** C3 on the sample machine at 0xff00: three instructions execute, the
    fourth byte fetched has no handler; [cpu_run] returns the error 1, and
    the line with the count 3 is the last on stderr. *)
Lemma cpu_run_returns_error_prints_count_witness :
  let m := sample_at 0xff00 0xff in
  ∃ m1 m2,
    (executes sample_instructions 1 2 3 3 m m1
     ∧ cpu_execute_instruction sample_instructions 1 2 3 m1 = Some (1, m2)
     ∧ 1 ≠ 0 ∧ (3 < 10)%nat)
    ∧ cpu_run sample_instructions 1 2 3 10 m
      = Some (1, fprintf_stderr ("Executed 3 instructions" +:+ newline) m2).
Proof.
  intros m.
  assert (∃ m1, executes sample_instructions 1 2 3 3 m m1
                ∧ ∃ m2, cpu_execute_instruction sample_instructions 1 2 3 m1
                        = Some (1, m2)) as (m1 & Hk & m2 & Hlast).
  { eexists. split.
    - eapply executes_S; [vm_compute; reflexivity|].
      eapply executes_S; [vm_compute; reflexivity|].
      eapply executes_S; [vm_compute; reflexivity|].
      apply executes_O.
    - eexists. vm_compute. reflexivity. }
  assert (1 ≠ 0) as Herr by lia.
  assert (3 < 10)%nat as Hfuel by lia.
  exists m1, m2. split; [exact (conj Hk (conj Hlast (conj Herr Hfuel)))|].
  exact (proj2 (cpu_run_returns_error_prints_count sample_instructions 1 2 3
                  3 m m1 1 m2 10 Hk Hlast Herr Hfuel)).
Defined.

(** C3 as it is stated: the caller would get the instruction count along
    with the error.  Two runs of the sample machine, one from 0xff08 and
    one from 0xff00, return the same value, 1, after 0 and after 3
    instructions: the count is not in what [cpu_run] returns. *)
Lemma cpu_run_return_omits_count :
  let run := cpu_run sample_instructions 1 2 3 10 in
  let loop := λ m, cpu_run_loop sample_instructions 1 2 3 10 m 0 in
  let m_a := sample_at 0xff08 0xff in
  let m_b := sample_at 0xff00 0xff in
  (fst <$> run m_a = Some 1 ∧ (λ r, r.1.2) <$> loop m_a = Some 0)
  ∧ (fst <$> run m_b = Some 1 ∧ (λ r, r.1.2) <$> loop m_b = Some 3)
  ∧ ¬ ∃ count_of : Z → Z,
        ∀ m err count m', loop m = Some (err, count, m') →
          ∃ m'', run m = Some (err, m'') ∧ count_of err = count.
Proof.
  cbv zeta.
  split; [split; vm_compute; reflexivity|].
  split; [split; vm_compute; reflexivity|].
  intros [count_of Hcount].
  assert (∃ m', cpu_run_loop sample_instructions 1 2 3 10 (sample_at 0xff08 0xff) 0
                = Some (1, 0, m')) as [m_a' Ha]
    by (eexists; vm_compute; reflexivity).
  assert (∃ m', cpu_run_loop sample_instructions 1 2 3 10 (sample_at 0xff00 0xff) 0
                = Some (1, 3, m')) as [m_b' Hb]
    by (eexists; vm_compute; reflexivity).
  destruct (Hcount _ 1 0 m_a' Ha) as (_ & _ & H0).
  destruct (Hcount _ 1 3 m_b' Hb) as (_ & _ & H3).
  congruence.
Qed.

(** * The further properties at work on the sample machines *)

Lemma cpu_set_get_status_witness :
  0 ≤ 0xc3 < 0x100
  ∧ _cpu_get_status (_cpu_set_status (st sample_machine) 0xc3) = 0xf3.
Proof.
  assert (0 ≤ 0xc3 < 0x100) as Hstatus by lia.
  split; [exact Hstatus|].
  exact (cpu_set_get_status (st sample_machine) 0xc3 Hstatus).
Defined.

Lemma cpu_pull_push_restores_witness :
  let m := sample_at 0xff00 0x10 in
  ∃ m1, (0 ≤ state_sp (st m) < 0x100 ∧ _cpu_pull_byte m = Some (0x00, m1))
    ∧ _cpu_push_byte m1 0x00 = Some m.
Proof.
  intros m.
  assert (0 ≤ state_sp (st m) < 0x100) as Hsp by (change (0 ≤ 0x10 < 0x100); lia).
  assert (∃ m1, _cpu_pull_byte m = Some (0x00, m1)) as [m1 Hpull]
    by (eexists; vm_compute; reflexivity).
  exists m1. split; [exact (conj Hsp Hpull)|].
  exact (cpu_pull_push_restores m 0x00 m1 Hsp Hpull).
Defined.

Lemma cpu_nmi_frame_and_vector_witness :
  let m := set_state (with_c 1) (sample_at 0x0400 0xff) in
  (stack_page_mapped m ∧ 0 ≤ state_sp (st m) < 0x100
   ∧ is_Some (mem_get_word m EWM_VECTOR_NMI)
   ∧ (strict (cpu m) = false ∨ 3 ≤ _cpu_stack_free m))
  ∧ ∃ m', cpu_nmi 2 m = Some (0, m')
      ∧ _mem_get_byte_direct m' 0x01fd = Some 0x31
      ∧ _mem_get_byte_direct m' 0x01fe = Some 0x00
      ∧ _mem_get_byte_direct m' 0x01ff = Some 0x04
      ∧ state_sp (st m') = 0xfc
      ∧ state_i (st m') = 1
      ∧ mem_get_word m' EWM_VECTOR_NMI = Some (state_pc (st m')).
Proof.
  intros m.
  assert (stack_page_mapped m) as Hmapped.
  { exists 0%nat, sample_ram. repeat split. vm_compute. lia. }
  assert (0 ≤ state_sp (st m) < 0x100) as Hsp by (change (0 ≤ 0xff < 0x100); lia).
  assert (is_Some (mem_get_word m EWM_VECTOR_NMI)) as Hvec
    by (exists 0x8000; vm_compute; reflexivity).
  assert (strict (cpu m) = false ∨ 3 ≤ _cpu_stack_free m) as Hgo
    by (left; vm_compute; reflexivity).
  split; [exact (conj Hmapped (conj Hsp (conj Hvec Hgo)))|].
  destruct (proj1 (cpu_nmi_frame_and_vector 2 m Hmapped Hsp Hvec) Hgo)
    as (m' & Hrun & Hhi & Hlo & Hstatus & Hsp' & Hi & Hpc).
  exists m'. repeat split; [exact Hrun|exact Hstatus|exact Hlo|exact Hhi
                             |exact Hsp'|exact Hi|exact Hpc].
Defined.

Lemma cpu_irq_nmi_agree_witness :
  let m := set_state (with_c 1) (sample_at 0x0400 0xff) in
  ∃ m1 m2, (cpu_irq 2 m = Some (0, m1) ∧ cpu_nmi 2 m = Some (0, m2))
    ∧ set_state (with_pc 0) m1 = set_state (with_pc 0) m2.
Proof.
  intros m.
  assert (∃ m1, cpu_irq 2 m = Some (0, m1)) as [m1 Hirq]
    by (eexists; vm_compute; reflexivity).
  assert (∃ m2, cpu_nmi 2 m = Some (0, m2)) as [m2 Hnmi]
    by (eexists; vm_compute; reflexivity).
  exists m1, m2. split; [exact (conj Hirq Hnmi)|].
  exact (proj2 (cpu_irq_nmi_agree 2 m 0 m1 0 m2 Hirq Hnmi)).
Defined.

Lemma cpu_interrupt_unwinds_witness :
  let m := set_state (with_c 1) (sample_at 0x0400 0xff) in
  ((cpu_nmi 2, EWM_VECTOR_NMI) ∈ [(cpu_irq 2, EWM_VECTOR_IRQ); (cpu_nmi 2, EWM_VECTOR_NMI)]
   ∧ stack_page_mapped m ∧ 0 ≤ state_sp (st m) < 0x100
   ∧ 0 ≤ state_pc (st m) < 0x10000
   ∧ is_Some (mem_get_word m EWM_VECTOR_NMI)
   ∧ (strict (cpu m) = false ∨ 3 ≤ _cpu_stack_free m))
  ∧ ∃ m' m1 m2, cpu_nmi 2 m = Some (0, m')
      ∧ _cpu_pull_byte m' = Some (0x31, m1)
      ∧ _cpu_pull_word m1 = Some (0x0400, m2)
      ∧ state_sp (st m2) = 0xff.
Proof.
  intros m.
  assert ((cpu_nmi 2, EWM_VECTOR_NMI)
          ∈ [(cpu_irq 2, EWM_VECTOR_IRQ); (cpu_nmi 2, EWM_VECTOR_NMI)]) as Hwhich.
  { apply elem_of_cons. right. apply elem_of_cons. left. reflexivity. }
  assert (stack_page_mapped m) as Hmapped.
  { exists 0%nat, sample_ram. repeat split. vm_compute. lia. }
  assert (0 ≤ state_sp (st m) < 0x100) as Hsp by (change (0 ≤ 0xff < 0x100); lia).
  assert (0 ≤ state_pc (st m) < 0x10000) as Hpc by (change (0 ≤ 0x0400 < 0x10000); lia).
  assert (is_Some (mem_get_word m EWM_VECTOR_NMI)) as Hvec
    by (exists 0x8000; vm_compute; reflexivity).
  assert (strict (cpu m) = false ∨ 3 ≤ _cpu_stack_free m) as Hgo
    by (left; vm_compute; reflexivity).
  split; [exact (conj Hwhich (conj Hmapped (conj Hsp (conj Hpc (conj Hvec Hgo)))))|].
  destruct (cpu_interrupt_unwinds 2 m (cpu_nmi 2) EWM_VECTOR_NMI
              Hwhich Hmapped Hsp Hpc Hvec Hgo)
    as (m' & m1 & m2 & Hrun & Hpull & Hword & Hsp2 & _).
  exists m', m1, m2. repeat split; [exact Hrun|exact Hpull|exact Hword|exact Hsp2].
Defined.

Lemma cpu_reset_frame_witness :
  ∃ m', cpu_reset sample_machine = Some m'
    ∧ heap m' = heap sample_machine
    ∧ mem (cpu m') = mem (cpu sample_machine)
    ∧ state_s (st m') = state_s (st sample_machine).
Proof.
  assert (∃ m', cpu_reset sample_machine = Some m') as [m' Hreset]
    by (eexists; vm_compute; reflexivity).
  exists m'. split; [exact Hreset|].
  destruct (cpu_reset_frame sample_machine m' Hreset)
    as (Hheap & Hmem & _ & _ & _ & Hs & _).
  exact (conj Hheap (conj Hmem Hs)).
Defined.

Lemma cpu_run_Some_witness :
  let m := sample_at 0xff00 0xff in
  ∃ m', cpu_run sample_instructions 1 2 3 10 m = Some (1, m')
    ∧ 1 ≠ 0
    ∧ ∃ k m1, (k < 10)%nat ∧ executes sample_instructions 1 2 3 k m m1.
Proof.
  intros m.
  assert (∃ m', cpu_run sample_instructions 1 2 3 10 m = Some (1, m')) as [m' Hrun]
    by (eexists; vm_compute; reflexivity).
  exists m'. split; [exact Hrun|].
  destruct (cpu_run_Some sample_instructions 1 2 3 10 m 1 m' Hrun)
    as (Herr & k & m1 & m2 & Hk & Hexec & _).
  split; [exact Herr|]. exists k, m1. exact (conj Hk Hexec).
Defined.

Lemma cpu_run_spins_witness :
  cpu_execute_instruction sample_instructions 1 2 3 sample_spin = Some (0, sample_spin)
  ∧ cpu_run sample_instructions 1 2 3 1000 sample_spin = None.
Proof.
  assert (cpu_execute_instruction sample_instructions 1 2 3 sample_spin
          = Some (0, sample_spin)) as Hstep by (vm_compute; reflexivity).
  split; [exact Hstep|].
  exact (cpu_run_spins sample_instructions 1 2 3 sample_spin Hstep 1000).
Defined.


Lemma cpu_execute_error_unchanged_witness :
  let m := sample_at 0xff08 0xff in
  ∃ m', (cpu_execute_instruction sample_instructions 1 2 3 m = Some (1, m') ∧ 1 ≠ 0)
    ∧ m' = m.
Proof.
  intros m.
  assert (∃ m', cpu_execute_instruction sample_instructions 1 2 3 m = Some (1, m'))
    as [m' Hrun] by (eexists; vm_compute; reflexivity).
  assert (1 ≠ 0) as Herr by lia.
  exists m'. split; [exact (conj Hrun Herr)|].
  exact (cpu_execute_error_unchanged sample_instructions 1 2 3 m 1 m' Hrun Herr).
Defined.

(** BRK declares 3 bytes of headroom; with strict mode off it is executed
    at SP = 0x00 all the same. *)
Lemma cpu_execute_non_strict_witness :
  let m := sample_at 0xff06 0x00 in
  ∃ m', (strict (cpu m) = false
         ∧ cpu_execute_instruction sample_instructions 1 2 3 m = Some (0, m'))
    ∧ (0 = 0
       ∨ (0 = 1 ∧ m' = m
          ∧ ∃ opcode, mem_get_byte m (state_pc (st m)) = Some opcode
              ∧ ins_handler (sample_instructions opcode) = None)).
Proof.
  intros m.
  assert (strict (cpu m) = false) as Hstrict by reflexivity.
  assert (∃ m', cpu_execute_instruction sample_instructions 1 2 3 m = Some (0, m'))
    as [m' Hrun] by (eexists; vm_compute; reflexivity).
  exists m'. split; [exact (conj Hstrict Hrun)|].
  exact (cpu_execute_non_strict sample_instructions 1 2 3 m 0 m' Hstrict Hrun).
Defined.

(** BRK in strict mode with SP = 0x03: the 3 bytes it declares are just
    there, and it is dispatched. *)
Lemma cpu_execute_dispatches_witness :
  let m := cpu_strict (sample_at 0xff06 0x03) true in
  (trace (cpu m) = 0
   ∧ mem_get_byte m (state_pc (st m)) = Some 0x00
   ∧ ins_handler (sample_instructions 0x00) = Some op_nop
   ∧ 0 < ins_stack (sample_instructions 0x00) ≤ _cpu_stack_free m)
  ∧ cpu_execute_instruction sample_instructions 1 2 3 m
    = Some (0, op_nop (set_state (with_pc 0xff07) m) oper_none).
Proof.
  intros m.
  assert (trace (cpu m) = 0) as Htrace by reflexivity.
  assert (mem_get_byte m (state_pc (st m)) = Some 0x00) as Hop
    by (vm_compute; reflexivity).
  assert (ins_handler (sample_instructions 0x00) = Some op_nop) as Hhandler
    by reflexivity.
  assert (0 < ins_stack (sample_instructions 0x00) ≤ _cpu_stack_free m) as Hroom
    by (change (0 < 3 ≤ 3); lia).
  split; [exact (conj Htrace (conj Hop (conj Hhandler Hroom)))|].
  exact (proj1 (cpu_execute_dispatches sample_instructions 1 2 3 m 0x00 op_nop
                  Htrace Hop Hhandler (or_intror (or_intror (or_introl Hroom))))
           eq_refl eq_refl).
Defined.

Lemma cpu_format_stack_defined_witness :
  let m := sample_at 0xff00 0xf0 in
  let m' := sample_at 0xff00 0x10 in
  (stack_page_mapped m ∧ 0 ≤ state_sp (st m) < 0x100
   ∧ stack_page_mapped m' ∧ 0 ≤ state_sp (st m') < 0x100)
  ∧ is_Some (cpu_format_stack m)
  ∧ ¬ is_Some (cpu_format_stack m').
Proof.
  intros m m'.
  assert (stack_page_mapped m) as Hmapped.
  { exists 0%nat, sample_ram. repeat split. vm_compute. lia. }
  assert (stack_page_mapped m') as Hmapped'.
  { exists 0%nat, sample_ram. repeat split. vm_compute. lia. }
  assert (0 ≤ state_sp (st m) < 0x100) as Hsp by (change (0 ≤ 0xf0 < 0x100); lia).
  assert (0 ≤ state_sp (st m') < 0x100) as Hsp' by (change (0 ≤ 0x10 < 0x100); lia).
  split; [exact (conj Hmapped (conj Hsp (conj Hmapped' Hsp')))|]. split.
  - apply (proj1 (cpu_format_stack_defined m Hmapped Hsp)). change (0xaa ≤ 0xf0). lia.
  - intros Hdef.
    apply (proj1 (cpu_format_stack_defined m' Hmapped' Hsp')) in Hdef.
    change (0xaa ≤ 0x10) in Hdef. lia.
Defined.

Lemma cpu_format_instruction_defined_witness :
  let m := sample_at 0xff01 0xff in
  (mem_get_byte m (state_pc (st m)) = Some 0xa9
   ∧ mem_get_byte m (u16 (state_pc (st m) + 1)) = Some 0x42
   ∧ mem_get_byte m (u16 (state_pc (st m) + 2)) = Some 0x4c
   ∧ (String.length (ins_name (sample_instructions 0xa9)) < 247)%nat)
  ∧ is_Some (cpu_format_instruction sample_instructions m).
Proof.
  intros m.
  assert (mem_get_byte m (state_pc (st m)) = Some 0xa9) as Hop
    by (vm_compute; reflexivity).
  assert (mem_get_byte m (u16 (state_pc (st m) + 1)) = Some 0x42) as Hb1
    by (vm_compute; reflexivity).
  assert (mem_get_byte m (u16 (state_pc (st m) + 2)) = Some 0x4c) as Hb2
    by (vm_compute; reflexivity).
  assert (String.length (ins_name (sample_instructions 0xa9)) < 247)%nat as Hname
    by (change (3 < 247)%nat; lia).
  split; [exact (conj Hop (conj Hb1 (conj Hb2 Hname)))|].
  exact (proj1 (cpu_format_instruction_defined sample_instructions m 0xa9 0x42 0x4c
                  Hop Hb1 Hb2 Hname)).
Defined.

(** A ROM page at 0 and an I/O region registered over part of it. *)
Lemma cpu_add_mem_priority_witness :
  let r1 := mk_mem MEM_TYPE_ROM 1 0x0000 0x100 (Some rom_read_handler) None in
  let r2 := mk_mem MEM_TYPE_IOM 5 0x0080 0x10 (Some (iom_read_handler (λ _, 0x07)))
              (Some iom_write_handler) in
  let m' := cpu_add_mem (cpu_add_mem sample_machine r1) r2 in
  mem_get_byte m' 0x0085 = Some 0x07
  ∧ mem_get_byte m' 0x0001 = Some 0xa9
  ∧ mem_get_byte m' 0x0150 = mem_get_byte sample_machine 0x0150.
Proof.
  intros r1 r2 m'. subst m'.
  destruct (cpu_add_mem_priority sample_machine r1 r2 0x0085) as (Hboth & _ & _).
  destruct (cpu_add_mem_priority sample_machine r1 r2 0x0001) as (_ & Hfirst & _).
  destruct (cpu_add_mem_priority sample_machine r1 r2 0x0150) as (_ & _ & Hnone).
  split; [|split].
  - etrans; [exact (Hboth eq_refl)|vm_compute; reflexivity].
  - etrans; [exact (Hfirst eq_refl eq_refl)|vm_compute; reflexivity].
  - exact (Hnone eq_refl eq_refl).
Defined.

Lemma cpu_add_mem_ram_shortcut_witness :
  let r := mk_mem MEM_TYPE_RAM 0 0x0000 0x200
             (Some ram_read_handler) (Some ram_write_handler) in
  (mem_type r = MEM_TYPE_RAM ∧ mem_start r = 0x0000 ∧ 0x200 ≤ mem_length r
   ∧ mem_read_handler r = Some ram_read_handler ∧ 0 ≤ 0x01ff < mem_length r)
  ∧ memory (cpu (cpu_add_mem sample_machine r)) = Some 0%nat
  ∧ mem_get_byte (cpu_add_mem sample_machine r) 0x01ff
    = _mem_get_byte_direct (cpu_add_mem sample_machine r) 0x01ff.
Proof.
  intros r.
  assert (0x200 ≤ mem_length r) as Hlen by (change (0x200 ≤ 0x200); lia).
  assert (0 ≤ 0x01ff < mem_length r) as Haddr by (change (0 ≤ 0x01ff < 0x200); lia).
  split; [exact (conj eq_refl (conj eq_refl (conj Hlen (conj eq_refl Haddr))))|].
  exact (cpu_add_mem_ram_shortcut sample_machine r 0x01ff eq_refl eq_refl Hlen eq_refl Haddr).
Defined.

(** An I/O region over the stack page: the bus sees the device, the
    direct accessor still sees the RAM. *)
Lemma cpu_add_rom_iom_overlay_witness :
  let m := sample_machine in
  (0x0100 ≤ 0x01ff < 0x0100 + 0x100 ∧ heap m !! 1%nat = Some sample_rom)
  ∧ mem_get_byte (cpu_add_iom m 0x0100 0x100 5 (Some (λ _, 0xee)) None) 0x01ff
    = Some 0xee
  ∧ _mem_get_byte_direct (cpu_add_iom m 0x0100 0x100 5 (Some (λ _, 0xee)) None) 0x01ff
    = _mem_get_byte_direct m 0x01ff.
Proof.
  intros m.
  assert (0x0100 ≤ 0x01ff < 0x0100 + 0x100) as Haddr by lia.
  assert (heap m !! 1%nat = Some sample_rom) as Hbuf by (vm_compute; reflexivity).
  split; [exact (conj Haddr Hbuf)|].
  destruct (cpu_add_rom_iom_overlay m 0x0100 0x100 1 sample_rom 5 (λ _, 0xee) None
              0x01ff Haddr Hbuf) as (_ & Hiom & _ & Hdirect).
  split; [exact Hiom|exact (Hdirect 0x01ff)].
Defined.

Lemma cpu_push_byte_on_bus_witness :
  let m := sample_at 0xff00 0xff in
  let r := mk_mem MEM_TYPE_RAM 0 0x0000 0x200
             (Some ram_read_handler) (Some ram_write_handler) in
  ∃ m1,
    (0 ≤ state_sp (st m)
     ∧ mem_resolve (mem (cpu m)) (0x0100 + state_sp (st m)) = Some r
     ∧ mem_read_handler r = Some ram_read_handler
     ∧ mem_start r = 0x0000
     ∧ memory (cpu m) = Some (mem_obj r)
     ∧ _cpu_push_byte m 0xab = Some m1)
    ∧ mem_get_byte m1 0x01ff = Some 0xab.
Proof.
  intros m r.
  assert (0 ≤ state_sp (st m)) as Hsp by (change (0 ≤ 0xff); lia).
  assert (mem_resolve (mem (cpu m)) (0x0100 + state_sp (st m)) = Some r) as Hr
    by (vm_compute; reflexivity).
  assert (memory (cpu m) = Some (mem_obj r)) as Hshortcut by reflexivity.
  assert (∃ m1, _cpu_push_byte m 0xab = Some m1) as [m1 Hpush]
    by (eexists; vm_compute; reflexivity).
  exists m1.
  split; [exact (conj Hsp (conj Hr (conj eq_refl (conj eq_refl (conj Hshortcut Hpush)))))|].
  exact (cpu_push_byte_on_bus m r 0xab m1 Hsp Hr eq_refl eq_refl Hshortcut Hpush).
Defined.

Lemma ram_write_read_witness :
  let r := mk_mem MEM_TYPE_RAM 0 0x0000 0x200
             (Some ram_read_handler) (Some ram_write_handler) in
  ∃ h', _ram_write (heap sample_machine) r 0x0042 0x99 = Some h'
    ∧ _ram_read h' r 0x0042 = Some 0x99
    ∧ ¬ is_Some (_ram_write (heap sample_machine) r 0x0200 0x99).
Proof.
  intros r.
  assert (∃ h', _ram_write (heap sample_machine) r 0x0042 0x99 = Some h') as [h' Hwrite]
    by (eexists; vm_compute; reflexivity).
  exists h'. split; [exact Hwrite|]. split.
  - exact (proj1 (proj2 (ram_write_read (heap sample_machine) r 0x0042 0x99) h' Hwrite)).
  - intros Hdef.
    apply (proj1 (ram_write_read (heap sample_machine) r 0x0200 0x99)) in Hdef.
    destruct Hdef as [b Hb]. vm_compute in Hb. discriminate Hb.
Defined.

Lemma cpu_add_ram_reads_witness :
  let m := cpu_init (mk_machine (mk_cpu (mk_state 0 0 0 0 0 0 0 0 0 0 0 0 0) false 0 [] None)
                       ∅ []) in
  ∃ m', (cpu_add_ram m 0x0000 0x200 m' ∧ 0 ≤ 0x0000)
    ∧ stack_page_mapped m'
    ∧ ∃ b, mem_get_byte m' 0x01ff = Some b ∧ 0 ≤ b < 0x100.
Proof.
  intros m.
  assert (heap m !! 0%nat = None) as Hfresh by reflexivity.
  assert (List.length (replicate 0x200 0) = Z.to_nat 0x200) as Hlen
    by (vm_compute; reflexivity).
  assert (Forall (λ b, 0 ≤ b < 0x100) (replicate 0x200 0)) as Htyped
    by (apply Forall_replicate; lia).
  pose proof (cpu_add_ram_malloc m 0x0000 0x200 0%nat (replicate 0x200 0)
                Hfresh Hlen Htyped) as Hram.
  assert (0 ≤ 0x0000) as Hstart by lia.
  eexists. split; [exact (conj Hram Hstart)|].
  destruct (cpu_add_ram_reads m 0x0000 0x200 _ Hram Hstart)
    as (Hread & _ & _ & Hstack & _).
  split; [apply Hstack; [reflexivity|lia]|].
  apply Hread. lia.
Defined.

(** A file one byte too long for the last page. *)
Lemma cpu_add_rom_file_rejects_witness :
  (64 * 1024 - 0xff00 < 0x101 ∨ 0x101 ≠ 0x101)
  ∧ cpu_add_rom_file sample_machine 0xff00 (rom_file 0x101 [] 0x101) 7 = sample_machine.
Proof.
  assert (64 * 1024 - 0xff00 < 0x101 ∨ 0x101 ≠ 0x101) as Hfail by (left; lia).
  split; [exact Hfail|].
  destruct (cpu_add_rom_file_rejects sample_machine 0xff00 (rom_file 0x101 [] 0x101) 7
              Hfail) as (_ & _ & _ & Hsame).
  apply Hsame. lia.
Defined.

Lemma cpu_add_rom_file_loads_witness :
  let m' := cpu_add_rom_file sample_machine 0x8000 (rom_file 3 [0x01; 0x02; 0x03] 3) 7 in
  (heap sample_machine !! 7%nat = None ∧ 0 ≤ 0x8000
   ∧ 0 ≤ 3 ≤ 64 * 1024 - 0x8000 ∧ 3 < 0x10000)
  ∧ mem_get_byte m' 0x8001 = Some 0x02
  ∧ mem_get_byte m' 0xfffc = mem_get_byte sample_machine 0xfffc.
Proof.
  intros m'. subst m'.
  assert (heap sample_machine !! 7%nat = None) as Hfresh by (vm_compute; reflexivity).
  assert (0 ≤ 0x8000) as Hstart by lia.
  assert (0 ≤ 3 ≤ 64 * 1024 - 0x8000) as Hsize by lia.
  assert (3 < 0x10000) as Hsmall by lia.
  split; [exact (conj Hfresh (conj Hstart (conj Hsize Hsmall)))|].
  destruct (cpu_add_rom_file_loads sample_machine 0x8000 3 [0x01; 0x02; 0x03] 7
              Hfresh Hstart Hsize Hsmall) as (Hread & _ & _ & Hout).
  split.
  - apply (Hread 0x8001). lia.
  - apply Hout; [lia|]. exists 0x34. vm_compute. reflexivity.
Defined.
